(** * RBAC rule validation: a shallow embedding of
      [patrole_tempest_plugin/rbac_rule_validation.py]

    The module defines the decorator [action], whose [wrapper] checks the
    verdict of the policy authority against the observed behaviour of a
    test, and the two helpers [_get_exception_type] and
    [_format_extra_target_data].

    Python code that raises, logs and calls collaborators is embedded in a
    small monad [M]: a computation yields the list of observable events it
    performed, in order, together with either a value or the exception it
    raised. *)

From Stdlib Require Import String Ascii List ZArith Bool Lia DecimalString.
Import ListNotations.
Local Open Scope string_scope.
Set Warnings "-register-all".

(** ** Python values *)

Module Py.

(** A class, as far as the module looks at it: its [__name__] and whether
    [isinstance(obj, test.BaseTestCase)] holds for its instances. *)
Record pyclass := mkclass {
  class_name : string;
  is_BaseTestCase : bool
}.

(** Objects reachable from the test case.  An instance carries its
    attribute dictionary; [None] and strings have no attribute of interest
    (their built-in methods are not modelled). *)
Inductive pyobj :=
| PyNone
| PyStr (s : string)
| PyInstance (cls : pyclass) (attrs : list (string * pyobj)).

Definition dict (V : Type) := list (string * V).

Fixpoint dict_get {V} (d : dict V) (k : string) : option V :=
  match d with
  | [] => None
  | (k', v) :: d' => if String.eqb k' k then Some v else dict_get d' k
  end.

(** [d[k] = v]: replaces the value of an existing key in place, appends a
    new key at the end (insertion order, as [dict.items()] iterates). *)
Fixpoint dict_set {V} (d : dict V) (k : string) (v : V) : dict V :=
  match d with
  | [] => [(k, v)]
  | (k', v') :: d' =>
      if String.eqb k' k then (k, v) :: d' else (k', v') :: dict_set d' k v
  end.

Definition type_name (o : pyobj) : string :=
  match o with
  | PyNone => "NoneType"
  | PyStr _ => "str"
  | PyInstance c _ => class_name c
  end.

Definition obj_attrs (o : pyobj) : dict pyobj :=
  match o with
  | PyInstance _ attrs => attrs
  | _ => []
  end.

Definition isinstance_BaseTestCase (o : pyobj) : bool :=
  match o with
  | PyInstance c _ => is_BaseTestCase c
  | _ => false
  end.

(** [s.split(sep)] for a one-character separator. *)
Fixpoint split (sep : ascii) (s : string) : list string :=
  match s with
  | EmptyString => [EmptyString]
  | String c s' =>
      if Ascii.eqb c sep then EmptyString :: split sep s'
      else match split sep s' with
           | [] => [String c EmptyString]
           | w :: ws => String c w :: ws
           end
  end.

(** [template % args]: every [%s] takes the next argument. *)
Fixpoint percent_format (t : string) (args : list string) : string :=
  match t with
  | EmptyString => EmptyString
  | String c t1 =>
      match t1 with
      | String c' t2 =>
          if (Ascii.eqb c "%" && Ascii.eqb c' "s")%bool then
            match args with
            | a :: args' => a ++ percent_format t2 args'
            | [] => String c (String c' (percent_format t2 []))
            end
          else String c (percent_format t1 args)
      | EmptyString => String c EmptyString
      end
  end.

(** [template.format(a0, a1)] for the positional fields [{0}] and [{1}]. *)
Fixpoint str_format (t : string) (args : list string) : string :=
  match t with
  | EmptyString => EmptyString
  | String c t1 =>
      match t1 with
      | String d (String c' t3) =>
          if (Ascii.eqb c "{" && Ascii.eqb c' "}")%bool then
            if Ascii.eqb d "0" then nth 0 args EmptyString ++ str_format t3 args
            else if Ascii.eqb d "1" then nth 1 args EmptyString ++ str_format t3 args
            else String c (str_format t1 args)
          else String c (str_format t1 args)
      | _ => String c (str_format t1 args)
      end
  end.

End Py.
Import Py.

(** ** Exceptions *)

(** Modelled from the spec: the exception classes of [tempest.lib.exceptions]
    and [patrole_tempest_plugin.rbac_exceptions] are imported by the module
    and declared elsewhere.  The spec lists the signals of the guarded
    operation as disjoint kinds (expected error kind, generic action
    failed, invalid service, unrecognized error), so the classes are the
    constructors of an enumeration and [isinstance] compares constructors.
    [OtherException] stands for any further class deriving from
    [Exception]; [OtherBaseException] for a class deriving from
    [BaseException] only (such as [KeyboardInterrupt]), which an
    [except Exception] clause does not catch. *)
Inductive exc_class :=
| Forbidden
| NotFound
| RbacActionFailed
| RbacResourceSetupFailed
| RbacOverPermission
| RbacInvalidService
| RbacInvalidErrorCode
| AttributeError
| OtherException (name : string)
| OtherBaseException (name : string).

Definition exc_class_eqb (a b : exc_class) : bool :=
  match a, b with
  | Forbidden, Forbidden
  | NotFound, NotFound
  | RbacActionFailed, RbacActionFailed
  | RbacResourceSetupFailed, RbacResourceSetupFailed
  | RbacOverPermission, RbacOverPermission
  | RbacInvalidService, RbacInvalidService
  | RbacInvalidErrorCode, RbacInvalidErrorCode
  | AttributeError, AttributeError => true
  | OtherException n, OtherException m => String.eqb n m
  | OtherBaseException n, OtherBaseException m => String.eqb n m
  | _, _ => false
  end.

(** [cls.__name__] *)
Definition __name__ (c : exc_class) : string :=
  match c with
  | Forbidden => "Forbidden"
  | NotFound => "NotFound"
  | RbacActionFailed => "RbacActionFailed"
  | RbacResourceSetupFailed => "RbacResourceSetupFailed"
  | RbacOverPermission => "RbacOverPermission"
  | RbacInvalidService => "RbacInvalidService"
  | RbacInvalidErrorCode => "RbacInvalidErrorCode"
  | AttributeError => "AttributeError"
  | OtherException n => n
  | OtherBaseException n => n
  end.

(** An exception instance: its class and the argument its constructor was
    called with ([None] for [cls()]).  The classes the module names
    ([NotFound], [Forbidden] and those of [rbac_exceptions]) accept one
    message argument, which is how the module instantiates them. *)
Record exn := mkexn {
  exc_type : exc_class;
  exc_arg : option string
}.

Definition isinstance (e : exn) (c : exc_class) : bool :=
  exc_class_eqb (exc_type e) c.

(** [isinstance(e, Exception)] *)
Definition is_Exception (e : exn) : bool :=
  match exc_type e with
  | OtherBaseException _ => false
  | _ => true
  end.

(** ** Events and the monad *)

Inductive event :=
| LOG_error (msg : string)
| LOG_info (msg : string)
| LOG_warning (msg : string)
| RbacAuthority_init (project_id user_id : pyobj) (service : string)
                     (extra_target_data : dict pyobj)
| get_permission_call (rule role : string)
| func_call (args : list pyobj) (kwargs : dict pyobj)
| switch_role_call (test_obj : pyobj) (toggle_rbac_role : bool).

Inductive result (A : Type) :=
| Return (a : A)
| Raise (e : exn).
Arguments Return {A} a.
Arguments Raise {A} e.

Definition M (A : Type) : Type := list event * result A.

Definition ret {A} (a : A) : M A := ([], Return a).
Definition raise {A} (e : exn) : M A := ([], Raise e).
Definition emit (ev : event) : M unit := ([ev], Return tt).
Definition lift {A} (r : result A) : M A := ([], r).

Definition bind {A B} (m : M A) (f : A -> M B) : M B :=
  match m with
  | (t, Return a) => let '(t', r) := f a in ((t ++ t')%list, r)
  | (t, Raise e) => (t, Raise e)
  end.

Definition trace {A} (m : M A) : list event := fst m.
Definition outcome {A} (m : M A) : result A := snd m.

Declare Scope py_scope.
Delimit Scope py_scope with py.
Notation "x <- c ;; k" := (bind c (fun x => k))
  (at level 61, c at next level, right associativity) : py_scope.
Notation "' pat <- c ;; k" := (bind c (fun x => match x with pat => k end))
  (at level 61, pat pattern, c at next level, right associativity) : py_scope.
Notation "c ;; k" := (bind c (fun _ => k))
  (at level 61, right associativity) : py_scope.
Local Open Scope py_scope.

(** *** try / except / else / finally *)

(** One [except] clause: which exceptions it matches, and its body. *)
Definition except_clause (B : Type) : Type := (exn -> bool) * (exn -> M B).

(** The first matching clause handles the exception; with none, it
    propagates. *)
Fixpoint dispatch {B} (clauses : list (except_clause B)) (e : exn) : M B :=
  match clauses with
  | [] => raise e
  | (matches, handler) :: rest =>
      if matches e then handler e else dispatch rest e
  end.

(** The [else] block runs when the body raised nothing and is not guarded
    by the [except] clauses; the [finally] block runs last on every path,
    and an exception of its own replaces the pending outcome. *)
Definition try_except_else_finally {A B}
    (body : M A) (clauses : list (except_clause B))
    (else_ : A -> M B) (finally_ : M unit) : M B :=
  let '(t1, r1) := body in
  let '(t2, r2) := match r1 with
                   | Raise e => dispatch clauses e
                   | Return a => else_ a
                   end in
  let '(t3, r3) := finally_ in
  ((t1 ++ t2 ++ t3)%list,
   match r3 with
   | Raise e => Raise e
   | Return _ => r2
   end).

Definition try_except {A} (body : M A) (clauses : list (except_clause A)) : M A :=
  let '(t1, r1) := body in
  match r1 with
  | Raise e => let '(t2, r2) := dispatch clauses e in ((t1 ++ t2)%list, r2)
  | Return a => (t1, Return a)
  end.

(** [getattr(obj, name)] *)
Definition getattr (obj : pyobj) (name : string) : M pyobj :=
  match dict_get (obj_attrs obj) name with
  | Some v => ret v
  | None =>
      raise (mkexn AttributeError
               (Some ("'" ++ type_name obj ++ "' object has no attribute '"
                      ++ name ++ "'")))
  end.

(** [str(codes)] for a list of integers, as in [str([403, 404])]. *)
Definition str_int (z : Z) : string :=
  DecimalString.NilZero.string_of_int (Z.to_int z).

Fixpoint join (sep : string) (l : list string) : string :=
  match l with
  | [] => EmptyString
  | [x] => x
  | x :: rest => x ++ sep ++ join sep rest
  end.

Definition str_int_list (l : list Z) : string :=
  "[" ++ join ", " (map str_int l) ++ "]".

(** Truth value of [irregular_msg], which is [None] or a string. *)
Definition truthy (s : option string) : bool :=
  match s with
  | None => false
  | Some EmptyString => false
  | Some _ => true
  end.

(** ** The module *)

Section RbacRuleValidation.

(** [CONF.rbac.rbac_test_role] *)
Variable rbac_test_role : string.

(** The policy authority of [rbac_auth]: [RbacAuthority(project_id, user_id,
    service, extra_target_data)] builds an object, or raises; its method
    [get_permission(rule, role)] answers, or raises. *)
Record authority := {
  get_permission : string -> string -> result bool
}.
Variable RbacAuthority :
  pyobj -> pyobj -> string -> dict pyobj -> result authority.

(** [str(e)] of an exception instance, given by the exception classes. *)
Variable exc_str : exn -> string.

(** [cls(msg)]: the call of an exception class met at run time with one
    message.  It yields an instance, or raises what the constructor of the
    class raises ([TypeError] when it takes other arguments). *)
Variable instantiate : exc_class -> string -> result exn.

(** The call [method(test_obj, toggle_rbac_role=...)] of the object found
    at [caller_ref.rbac_utils.switch_role]: it returns, or raises. *)
Variable switch_role : pyobj -> pyobj -> bool -> result pyobj.

(** *** [_get_exception_type] (lines 133-150) *)
Definition _get_exception_type (expected_error_code : Z)
  : M (exc_class * option string) :=
  let supported_error_codes := [403; 404]%Z in
  if (expected_error_code =? 403)%Z then
    ret (Forbidden, None)
  else if (expected_error_code =? 404)%Z then
    ret (NotFound,
         Some ("NotFound exception was caught for policy action "
               ++ "{0}. The service {1} throws a 404 instead of a 403, "
               ++ "which is irregular."))
  else
    let msg := str_format
                 ("Please pass an expected error code. Currently "
                  ++ "supported codes: {0}")
                 [str_int_list supported_error_codes] in
    emit (LOG_error msg);;
    raise (mkexn RbacInvalidErrorCode None).

(** *** [_format_extra_target_data] (lines 153-181) *)

(** The inner loop, [for attr in attrs: attr_value = getattr(attr_value,
    attr)], from the current [attr_value]. *)
Fixpoint getattr_each (attr_value : pyobj) (attrs : list string) : M pyobj :=
  match attrs with
  | [] => ret attr_value
  | attr :: rest =>
      attr_value <- getattr attr_value attr;;
      getattr_each attr_value rest
  end.

(** The outer loop over [extra_target_data.items()].  The state of the
    loop is the pair of [attr_value] and [formatted_target_data]: both are
    assigned before the loop and updated in its body. *)
Fixpoint for_items (attr_value : pyobj) (formatted_target_data : dict pyobj)
    (items : list (string * string)) : M (dict pyobj) :=
  match items with
  | [] => ret formatted_target_data
  | (user_attribute, attr_string) :: rest =>
      let attrs := split "." attr_string in
      attr_value <- getattr_each attr_value attrs;;
      let formatted_target_data :=
        dict_set formatted_target_data user_attribute attr_value in
      for_items attr_value formatted_target_data rest
  end.

Definition _format_extra_target_data (test_obj : pyobj)
    (extra_target_data : dict string) : M (dict pyobj) :=
  let attr_value := test_obj in
  let formatted_target_data := [] in
  for_items attr_value formatted_target_data extra_target_data.

(** *** [action] (lines 32-130) *)

Section Decorator.

Variable service : string.
Variable rule : string.
Variable admin_only : bool.
Variable expected_error_code : Z.
Variable extra_target_data : dict string.

(** The decorated test: called with positional and keyword arguments, it
    returns or raises. *)
Variable func : list pyobj -> dict pyobj -> result pyobj.

(** Lines 67-69: [caller_ref] is [args[0]] when there is one and it is a
    test case, and stays [None] otherwise. *)
Definition select_caller_ref (args : list pyobj) : pyobj :=
  let caller_ref := PyNone in
  match args with
  | a0 :: _ => if isinstance_BaseTestCase a0 then a0 else caller_ref
  | [] => caller_ref
  end.

(** Lines 66-76: the test case and its credentials. *)
Definition credentials_block (args : list pyobj) : M (pyobj * pyobj * pyobj) :=
  try_except
    (let caller_ref := select_caller_ref args in
     auth_provider <- getattr caller_ref "auth_provider";;
     credentials <- getattr auth_provider "credentials";;
     project_id <- getattr credentials "project_id";;
     auth_provider <- getattr caller_ref "auth_provider";;
     credentials <- getattr auth_provider "credentials";;
     user_id <- getattr credentials "user_id";;
     ret (caller_ref, project_id, user_id))
    [(fun e => isinstance e AttributeError,
      fun e =>
        let msg := str_format
                     ("{0}: project_id/user_id not found in "
                      ++ "cls.auth_provider.credentials")
                     [exc_str e] in
        emit (LOG_error msg);;
        raise (mkexn RbacResourceSetupFailed (Some msg)))].

(** Lines 78-88: the verdict [allowed]. *)
Definition allowed_block (caller_ref project_id user_id : pyobj) : M bool :=
  if admin_only then
    emit (LOG_info
            (str_format
               ("As admin_only is True, only admin role should be "
                ++ "allowed to perform the API. Skipping oslo.policy "
                ++ "check for policy action {0}.") [rule]));;
    ret (String.eqb rbac_test_role "admin")
  else
    extra <- _format_extra_target_data caller_ref extra_target_data;;
    emit (RbacAuthority_init project_id user_id service extra);;
    authority <- lift (RbacAuthority project_id user_id service extra);;
    emit (get_permission_call rule rbac_test_role);;
    lift (get_permission authority rule rbac_test_role).

(** Lines 127-128, the body of the [finally] clause:
    [caller_ref.rbac_utils.switch_role(caller_ref, toggle_rbac_role=False)].
    The two attributes are looked up, then the method is called; the call
    is recorded as an event, and its result is that of the collaborator. *)
Definition restore_role (caller_ref : pyobj) : M unit :=
  rbac_utils <- getattr caller_ref "rbac_utils";;
  method <- getattr rbac_utils "switch_role";;
  emit (switch_role_call caller_ref false);;
  _ <- lift (switch_role method caller_ref false);;
  ret tt.

(** Lines 93-128: the call of the test and the comparison with [allowed].
    The logger is a collaborator outside the module: its calls are recorded
    as events and return.  What the test does on its own account is not
    recorded; only the call and its result are. *)
Definition test_block (caller_ref : pyobj) (allowed : bool)
    (expected_exception : exc_class) (irregular_msg : option string)
    (args : list pyobj) : M unit :=
  try_except_else_finally
    (emit (func_call args []);;
     lift (func args []))
    [(fun e => isinstance e RbacInvalidService,
      fun e =>
        let msg := percent_format "%s is not a valid service." [service] in
        emit (LOG_error msg);;
        raise (mkexn NotFound
                 (Some (percent_format "%s RbacInvalidService was: %s"
                          [msg; exc_str e]))));
     (fun e => (isinstance e expected_exception
                || isinstance e RbacActionFailed)%bool,
      fun e =>
        (if truthy irregular_msg then
           match irregular_msg with
           | Some template =>
               emit (LOG_warning (str_format template [rule; service]))
           | None => ret tt
           end
         else ret tt);;
        if allowed then
          let msg := percent_format "Role %s was not allowed to perform %s."
                       [rbac_test_role; rule] in
          emit (LOG_error msg);;
          raise (mkexn Forbidden
                   (Some (percent_format "%s exception was: %s"
                            [msg; exc_str e])))
        else ret tt);
     (is_Exception,
      fun e =>
        let error_details := exc_str e in
        let msg := percent_format
                     ("%s An unexpected exception has occurred: Expected "
                      ++ "exception was %s, which was not thrown.")
                     [error_details; __name__ expected_exception] in
        emit (LOG_error msg);;
        value <- lift (instantiate (exc_type e) msg);;
        raise value)]
    (fun _ =>
       if negb allowed then
         emit (LOG_error (percent_format "Role %s was allowed to perform %s"
                            [rbac_test_role; rule]));;
         raise (mkexn RbacOverPermission
                  (Some (percent_format
                           ("OverPermission: Role %s was allowed to "
                            ++ "perform %s")
                           [rbac_test_role; rule])))
       else ret tt)
    (restore_role caller_ref).

Definition wrapper (args : list pyobj) (kwargs : dict pyobj) : M unit :=
  '(caller_ref, project_id, user_id) <- credentials_block args;;
  allowed <- allowed_block caller_ref project_id user_id;;
  '(expected_exception, irregular_msg) <-
    _get_exception_type expected_error_code;;
  test_block caller_ref allowed expected_exception irregular_msg args.

End Decorator.

Definition action (service : string) (rule : string) (admin_only : bool)
    (expected_error_code : Z) (extra_target_data : dict string)
    (func : list pyobj -> dict pyobj -> result pyobj)
  : list pyobj -> dict pyobj -> M unit :=
  wrapper service rule admin_only expected_error_code extra_target_data func.

End RbacRuleValidation.

Arguments credentials_block exc_str args : assert.
Arguments test_block rbac_test_role exc_str instantiate switch_role
  service rule func
  caller_ref allowed expected_exception irregular_msg args : assert.
Arguments restore_role switch_role caller_ref : assert.

(** The outcome of a [try] statement whose [finally] clause ended with
    [finished]: an exception of the clause replaces the pending outcome. *)
Definition after_finally {A} (pending : result A) (finished : result unit)
  : result A :=
  match finished with
  | Raise e => Raise e
  | Return _ => pending
  end.

(** ** Observations on traces *)

Definition is_func_call (ev : event) : bool :=
  match ev with func_call _ _ => true | _ => false end.

(** The restoration step of the [finally] block:
    [switch_role(caller_ref, toggle_rbac_role=False)]. *)
Definition is_role_restoration (ev : event) : bool :=
  match ev with switch_role_call _ false => true | _ => false end.

Definition is_authority_event (ev : event) : bool :=
  match ev with
  | RbacAuthority_init _ _ _ _ | get_permission_call _ _ => true
  | _ => false
  end.

Definition is_log (ev : event) : bool :=
  match ev with
  | LOG_error _ | LOG_info _ | LOG_warning _ => true
  | _ => false
  end.

Definition count (p : event -> bool) (t : list event) : nat :=
  length (filter p t).

Definition is_LOG_error (ev : event) : bool :=
  match ev with LOG_error _ => true | _ => false end.

Definition is_LOG_info (ev : event) : bool :=
  match ev with LOG_info _ => true | _ => false end.

Definition is_LOG_warning (ev : event) : bool :=
  match ev with LOG_warning _ => true | _ => false end.

(** What an invocation may do before it calls the test: log an error or an
    information, and talk to the authority. *)
Definition is_setup_event (ev : event) : bool :=
  (is_LOG_error ev || is_LOG_info ev || is_authority_event ev)%bool.

(** The notice logged when a service answers 404 where 403 is regular:
    the template of [_get_exception_type], formatted with the rule and
    the service. *)
Definition irregular_notice (rule service : string) : string :=
  "NotFound exception was caught for policy action " ++ rule
  ++ ". The service " ++ service
  ++ " throws a 404 instead of a 403, which is irregular.".

(** [NotFound], raised when the test signals an invalid service. *)
Definition invalid_service_failure (service : string)
    (exc_str : exn -> string) (e : exn) : exn :=
  mkexn NotFound
    (Some ((service ++ " is not a valid service.")
           ++ " RbacInvalidService was: " ++ exc_str e)).

(** Whether a string contains the character [c]. *)
Fixpoint contains (c : ascii) (s : string) : bool :=
  match s with
  | EmptyString => false
  | String c' s' => (Ascii.eqb c' c || contains c s')%bool
  end.

(** ** The failures the wrapper raises *)

(** [Forbidden], raised when the role was denied what the policy allows;
    it carries the text of the exception [e] of the test. *)
Definition forbidden_failure (rbac_test_role rule : string)
    (exc_str : exn -> string) (e : exn) : exn :=
  mkexn Forbidden
    (Some (("Role " ++ rbac_test_role ++ " was not allowed to perform "
            ++ rule ++ ".")
           ++ " exception was: " ++ exc_str e)).

(** [RbacOverPermission], raised when the role performed what the policy
    denies. *)
Definition over_permission_failure (rbac_test_role rule : string) : exn :=
  mkexn RbacOverPermission
    (Some ("OverPermission: Role " ++ rbac_test_role
           ++ " was allowed to perform " ++ rule)).

(** The exception raised again for an unexpected exception [e] of the test:
    of the class of [e], with the text of [e] and the name of the class
    that was expected. *)
Definition unexpected_message (exc_str : exn -> string)
    (expected_exception : exc_class) (e : exn) : string :=
  exc_str e
  ++ " An unexpected exception has occurred: Expected exception was "
  ++ __name__ expected_exception ++ ", which was not thrown.".

Definition unexpected_failure (exc_str : exn -> string)
    (expected_exception : exc_class) (e : exn) : exn :=
  mkexn (exc_type e) (Some (unexpected_message exc_str expected_exception e)).

(** The value of [attr_value] once the loop of [_format_extra_target_data]
    has run over [items], started from [attr_value]; [None] when the loop
    raised on the way. *)
Fixpoint attr_value_after (attr_value : pyobj) (items : dict string)
  : option pyobj :=
  match items with
  | [] => Some attr_value
  | (_, attr_string) :: rest =>
      match outcome (getattr_each attr_value (split "." attr_string)) with
      | Return v => attr_value_after v rest
      | Raise _ => None
      end
  end.

(** The resolver as the specification words it: every path is followed
    from the root [context], and the value it reaches is stored under the
    attribute name. *)
Fixpoint resolve_from_root (context : pyobj) (formatted : dict pyobj)
    (paths : dict string) : M (dict pyobj) :=
  match paths with
  | [] => ret formatted
  | (attribute_name, path_string) :: rest =>
      v <- getattr_each context (split "." path_string);;
      resolve_from_root context (dict_set formatted attribute_name v) rest
  end.

Definition resolve (context : pyobj) (paths : dict string) : M (dict pyobj) :=
  resolve_from_root context [] paths.

(** ** A sample test case *)

Module Sample.

Definition credentials : pyobj :=
  PyInstance (mkclass "KeystoneV3Credentials" false)
    [("project_id", PyStr "project-1"); ("user_id", PyStr "user-1")].

Definition auth_provider : pyobj :=
  PyInstance (mkclass "KeystoneV3AuthProvider" false)
    [("credentials", credentials); ("name", PyStr "provider-name")].

(** The object of the role switch, with its method. *)
Definition rbac_utils : pyobj :=
  PyInstance (mkclass "RbacUtils" false)
    [("switch_role", PyInstance (mkclass "method" false) [])].

(** A test case with credentials and a role switch. *)
Definition test_case : pyobj :=
  PyInstance (mkclass "ServersRbacTest" true)
    [("auth_provider", auth_provider); ("name", PyStr "test-name");
     ("rbac_utils", rbac_utils)].

(** A test case with credentials, but without a role switch. *)
Definition test_case_no_rbac_utils : pyobj :=
  PyInstance (mkclass "ServersRbacTest" true)
    [("auth_provider", auth_provider); ("name", PyStr "test-name")].

(** A test case whose credentials lack [user_id]. *)
Definition test_case_no_user : pyobj :=
  PyInstance (mkclass "ServersRbacTest" true)
    [("auth_provider",
      PyInstance (mkclass "KeystoneV3AuthProvider" false)
        [("credentials",
          PyInstance (mkclass "KeystoneV3Credentials" false)
            [("project_id", PyStr "project-1")])])].

(** The attribute [message] of the exception classes that derive from
    [TempestException]. *)
Definition tempest_message (c : exc_class) : option string :=
  match c with
  | Forbidden => Some "Forbidden"
  | NotFound => Some "Object not found"
  | RbacActionFailed => Some "Rbac action failed"
  | RbacResourceSetupFailed => Some "Rbac resource setup failed"
  | RbacOverPermission =>
      Some "Action performed that should not be permitted"
  | RbacInvalidService => Some "Attempted to test an invalid service"
  | RbacInvalidErrorCode => Some "Unsupported error code passed in test"
  | _ => None
  end.

Definition newline : string := String (ascii_of_nat 10) EmptyString.

(** [str(e)]: for a built-in exception, the argument of the constructor;
    for a [TempestException], the message of the class, followed by the
    argument as details. *)
Definition exc_str (e : exn) : string :=
  match tempest_message (exc_type e), exc_arg e with
  | Some message, Some details => message ++ newline ++ "Details: " ++ details
  | Some message, None => message
  | None, Some s => s
  | None, None => EmptyString
  end.

(** [cls(msg)]: every class takes one message, except [JSONDecodeError],
    whose constructor wants a document and a position as well. *)
Definition instantiate (c : exc_class) (msg : string) : result exn :=
  match c with
  | OtherException name =>
      if String.eqb name "JSONDecodeError" then
        Raise (mkexn (OtherException "TypeError")
                 (Some "__init__() missing 2 required positional arguments: 'doc' and 'pos'"))
      else Return (mkexn c (Some msg))
  | _ => Return (mkexn c (Some msg))
  end.

(** A role switch that returns. *)
Definition switch_role : pyobj -> pyobj -> bool -> result pyobj :=
  fun _ _ _ => Return PyNone.

(** An authority that answers every query with [verdict]. *)
Definition constant_authority (verdict : bool)
  : pyobj -> pyobj -> string -> dict pyobj -> result authority :=
  fun _ _ _ _ => Return {| get_permission := fun _ _ => Return verdict |}.

Definition passing_test : list pyobj -> dict pyobj -> result pyobj :=
  fun _ _ => Return PyNone.

Definition raising_test (c : exc_class) (text : string)
  : list pyobj -> dict pyobj -> result pyobj :=
  fun _ _ => Raise (mkexn c (Some text)).

(** An authority whose constructor rejects the service. *)
Definition rejecting_authority
  : pyobj -> pyobj -> string -> dict pyobj -> result authority :=
  fun _ _ _ _ =>
    Raise (mkexn RbacInvalidService (Some "Attempted to test an invalid service")).

(** A test that fails as soon as it is given a keyword argument. *)
Definition keyword_averse_test : list pyobj -> dict pyobj -> result pyobj :=
  fun _ kwargs =>
    match kwargs with
    | [] => Return PyNone
    | _ :: _ =>
        Raise (mkexn (OtherException "TypeError")
                 (Some "got an unexpected keyword argument"))
    end.

End Sample.

(** ** Facts about the monad *)

Lemma outcome_bind_Return {A B} (m : M A) (f : A -> M B) (a : A) :
  outcome m = Return a -> outcome (bind m f) = outcome (f a).
Proof.
  destruct m as [t r]; simpl; intros ->.
  unfold bind. destruct (f a); reflexivity.
Qed.

Lemma outcome_bind_Raise {A B} (m : M A) (f : A -> M B) (e : exn) :
  outcome m = Raise e -> outcome (bind m f) = Raise e.
Proof.
  destruct m as [t r]; simpl; intros ->. reflexivity.
Qed.

Lemma trace_bind_Return {A B} (m : M A) (f : A -> M B) (a : A) :
  outcome m = Return a ->
  trace (bind m f) = (trace m ++ trace (f a))%list.
Proof.
  destruct m as [t r]; simpl; intros ->.
  unfold bind. destruct (f a); reflexivity.
Qed.

Lemma trace_bind_Raise {A B} (m : M A) (f : A -> M B) (e : exn) :
  outcome m = Raise e -> trace (bind m f) = trace m.
Proof.
  destruct m as [t r]; simpl; intros ->. reflexivity.
Qed.

Lemma bind_ret_l {A B} (a : A) (f : A -> M B) :
  bind ([], Return a) f = f a.
Proof. unfold bind. destruct (f a); reflexivity. Qed.

Lemma trace_pair {A} (t : list event) (r : result A) : trace (t, r) = t.
Proof. reflexivity. Qed.

Lemma outcome_pair {A} (t : list event) (r : result A) : outcome (t, r) = r.
Proof. reflexivity. Qed.

(** A [try] statement whose body is one recorded call. *)
Lemma try_except_else_finally_call {A B} ev (r : result A)
    (clauses : list (except_clause B)) (else_ : A -> M B)
    (finally_ : M unit) :
  try_except_else_finally (emit ev;; lift r) clauses else_ finally_
  = ((ev :: trace (match r with
                   | Raise e => dispatch clauses e
                   | Return a => else_ a
                   end)
         ++ trace finally_)%list,
     after_finally (outcome (match r with
                             | Raise e => dispatch clauses e
                             | Return a => else_ a
                             end))
       (outcome finally_)).
Proof.
  unfold try_except_else_finally, bind, emit, lift.
  destruct r as [a|e].
  - destruct (else_ a) as [t2 r2], finally_ as [t3 [u|e3]]; reflexivity.
  - destruct (dispatch clauses e) as [t2 r2], finally_ as [t3 [u|e3]];
      reflexivity.
Qed.

Lemma count_app p (t1 t2 : list event) :
  count p (t1 ++ t2) = count p t1 + count p t2.
Proof. unfold count. rewrite filter_app, length_app. reflexivity. Qed.

Lemma count_none p q (t : list event) :
  forallb q t = true ->
  (forall ev, q ev = true -> p ev = false) ->
  count p t = 0.
Proof.
  intros Hq Hpq. unfold count.
  induction t as [|ev t IH]; simpl in *; [reflexivity|].
  apply andb_prop in Hq. destruct Hq as [Hev Ht].
  rewrite (Hpq ev Hev). apply IH. exact Ht.
Qed.

Lemma count_cons p ev (t : list event) :
  count p (ev :: t) = (if p ev then 1 else 0) + count p t.
Proof. unfold count. simpl. destruct (p ev); reflexivity. Qed.

Lemma log_is_no_call ev : is_log ev = true -> is_func_call ev = false.
Proof. destruct ev; simpl; intros; try discriminate; reflexivity. Qed.

Lemma log_is_no_restoration ev :
  is_log ev = true -> is_role_restoration ev = false.
Proof. destruct ev; simpl; intros; try discriminate; reflexivity. Qed.

Lemma log_is_no_authority_event ev :
  is_log ev = true -> is_authority_event ev = false.
Proof. destruct ev; simpl; intros; try discriminate; reflexivity. Qed.

Lemma verdict_event_is_no_call ev :
  (is_log ev || is_authority_event ev)%bool = true -> is_func_call ev = false.
Proof. destruct ev; simpl; intros; try discriminate; reflexivity. Qed.

Lemma verdict_event_is_no_restoration ev :
  (is_log ev || is_authority_event ev)%bool = true ->
  is_role_restoration ev = false.
Proof. destruct ev; simpl; intros; try discriminate; reflexivity. Qed.

Lemma forallb_weaken (p q : event -> bool) (t : list event) :
  (forall ev, p ev = true -> q ev = true) ->
  forallb p t = true -> forallb q t = true.
Proof.
  intros Hpq. induction t as [|ev t IH]; simpl; [reflexivity|].
  intros H. apply andb_prop in H. destruct H as [H1 H2].
  rewrite (Hpq _ H1), (IH H2). reflexivity.
Qed.

(** ** Facts about the helpers *)

Lemma exc_class_eqb_eq a b : exc_class_eqb a b = true <-> a = b.
Proof.
  split.
  - destruct a, b; simpl; try discriminate; try reflexivity;
      intros H; apply String.eqb_eq in H; now subst.
  - intros <-. destruct a; simpl; try reflexivity; apply String.eqb_refl.
Qed.

(** Only 403 and 404 are classified, and this is what they yield. *)
Lemma _get_exception_type_Return code ee im :
  outcome (_get_exception_type code) = Return (ee, im) ->
  trace (_get_exception_type code) = [] /\
  ((code = 403%Z /\ ee = Forbidden /\ im = None) \/
   (code = 404%Z /\ ee = NotFound /\ truthy im = true)).
Proof.
  unfold _get_exception_type.
  destruct (Z.eqb_spec code 403) as [->|n3].
  - simpl. intros [= <- <-]. auto.
  - destruct (Z.eqb_spec code 404) as [->|n4].
    + simpl. intros [= <- <-]. auto.
    + simpl. discriminate.
Qed.

Lemma _get_exception_type_Raise code :
  code <> 403%Z -> code <> 404%Z ->
  outcome (_get_exception_type code) = Raise (mkexn RbacInvalidErrorCode None).
Proof.
  intros n3 n4. unfold _get_exception_type.
  destruct (Z.eqb_spec code 403); [contradiction|].
  destruct (Z.eqb_spec code 404); [contradiction|].
  reflexivity.
Qed.

(** The loops of the resolver emit nothing. *)
Lemma getattr_each_trace v attrs : trace (getattr_each v attrs) = [].
Proof.
  revert v. induction attrs as [|a attrs IH]; intros v; simpl.
  - reflexivity.
  - unfold getattr. destruct (dict_get (obj_attrs v) a) as [w|]; simpl.
    + specialize (IH w). destruct (getattr_each w attrs) as [t r].
      simpl in IH. subst. reflexivity.
    + reflexivity.
Qed.

Lemma for_items_trace v d items : trace (for_items v d items) = [].
Proof.
  revert v d. induction items as [|[k p] items IH]; intros v d; simpl.
  - reflexivity.
  - pose proof (getattr_each_trace v (split "." p)) as Hg.
    destruct (getattr_each v (split "." p)) as [t [w|e]]; simpl in *; subst.
    + specialize (IH w (dict_set d k w)).
      destruct (for_items w (dict_set d k w) items) as [t r].
      simpl in IH. subst. reflexivity.
    + reflexivity.
Qed.

(** The messages, with their arguments in place. *)
Lemma append_empty_r (s : string) : s ++ EmptyString = s.
Proof. induction s as [|c s IH]; simpl; [reflexivity | now rewrite IH]. Qed.

Lemma forbidden_message role rule text :
  percent_format "%s exception was: %s"
    [percent_format "Role %s was not allowed to perform %s." [role; rule];
     text]
  = ("Role " ++ role ++ " was not allowed to perform " ++ rule ++ ".")
    ++ " exception was: " ++ text.
Proof.
  change (percent_format "%s exception was: %s"
            [percent_format "Role %s was not allowed to perform %s."
               [role; rule]; text])
    with (("Role " ++ role ++ " was not allowed to perform " ++ rule ++ ".")
          ++ " exception was: " ++ text ++ EmptyString).
  now rewrite append_empty_r.
Qed.

Lemma over_permission_message role rule :
  percent_format "OverPermission: Role %s was allowed to perform %s"
    [role; rule]
  = "OverPermission: Role " ++ role ++ " was allowed to perform " ++ rule.
Proof.
  change (percent_format "OverPermission: Role %s was allowed to perform %s"
            [role; rule])
    with ("OverPermission: Role " ++ role ++ " was allowed to perform "
          ++ rule ++ EmptyString).
  now rewrite append_empty_r.
Qed.

(** ** Facts about [wrapper] *)

Section WrapperFacts.

Variable rbac_test_role : string.
Variable RbacAuthority :
  pyobj -> pyobj -> string -> dict pyobj -> result authority.
Variable exc_str : exn -> string.
Variable instantiate : exc_class -> string -> result exn.
Variable switch_role : pyobj -> pyobj -> bool -> result pyobj.
Variables service rule : string.
Variable admin_only : bool.
Variable expected_error_code : Z.
Variable extra_target_data : dict string.
Variable func : list pyobj -> dict pyobj -> result pyobj.

Let run := action rbac_test_role RbacAuthority exc_str instantiate
    switch_role service rule
             admin_only expected_error_code extra_target_data func.
Let verdict := allowed_block rbac_test_role RbacAuthority service rule
                 admin_only extra_target_data.
Let test := test_block rbac_test_role exc_str instantiate switch_role
              service rule func.
Let restore := restore_role switch_role.

(** When the three steps before the call succeed, the invocation is the
    test block run after them. *)
Lemma wrapper_reaches_test args kwargs c p u a ee im :
  outcome (credentials_block exc_str args) = Return (c, p, u) ->
  outcome (verdict c p u) = Return a ->
  outcome (_get_exception_type expected_error_code) = Return (ee, im) ->
  run args kwargs =
    ((trace (credentials_block exc_str args) ++ trace (verdict c p u)
      ++ trace (test c a ee im args))%list,
     outcome (test c a ee im args)).
Proof.
  intros Hc Ha He.
  destruct (_get_exception_type_Return _ _ _ He) as [Ht _].
  subst run verdict test. unfold action, wrapper.
  destruct (credentials_block exc_str args) as [t1 r1].
  simpl in Hc. subst r1. unfold bind at 1.
  destruct (allowed_block _ _ _ _ _ _ c p u) as [t2 r2].
  simpl in Ha. subst r2. unfold bind at 1.
  destruct (_get_exception_type expected_error_code) as [t3 r3].
  simpl in He, Ht. subst r3 t3. unfold bind.
  destruct (test_block _ _ _ _ _ _ _ c a ee im args) as [t4 r4].
  simpl. rewrite app_assoc. reflexivity.
Qed.

(** The restoration step: the role switch is called when it is found on
    the test case, and [AttributeError] is raised when it is not. *)
Lemma restore_role_cases c :
  (exists method,
     outcome (getattr_each c ["rbac_utils"; "switch_role"]) = Return method
     /\ restore c
        = ([switch_role_call c false],
           match switch_role method c false with
           | Return _ => Return tt
           | Raise e => Raise e
           end))
  \/ (exists e,
        outcome (getattr_each c ["rbac_utils"; "switch_role"]) = Raise e
        /\ exc_type e = AttributeError
        /\ restore c = ([], Raise e)).
Proof.
  unfold restore, restore_role, getattr_each, getattr.
  destruct (dict_get (obj_attrs c) "rbac_utils") as [utils|]; cbn;
    [|right; eexists; repeat split].
  destruct (dict_get (obj_attrs utils) "switch_role") as [method|]; cbn;
    [|right; eexists; repeat split].
  left. exists method. split; [reflexivity|].
  destruct (switch_role method c false); reflexivity.
Qed.

Lemma restore_role_trace c :
  trace (restore c) = [] \/ trace (restore c) = [switch_role_call c false].
Proof.
  destruct (restore_role_cases c) as [(m & _ & ->)|(e & _ & _ & ->)];
    auto.
Qed.

(** The test returns. *)
Lemma test_block_returns c a ee im args v :
  func args [] = Return v ->
  test c a ee im args =
    if a then
      ((func_call args [] :: trace (restore c))%list,
       after_finally (Return tt) (outcome (restore c)))
    else
      ((func_call args []
          :: LOG_error (percent_format "Role %s was allowed to perform %s"
                          [rbac_test_role; rule])
          :: trace (restore c))%list,
       after_finally
         (Raise (mkexn RbacOverPermission
                   (Some (percent_format
                            "OverPermission: Role %s was allowed to perform %s"
                            [rbac_test_role; rule]))))
         (outcome (restore c))).
Proof.
  intros Hf. unfold test, test_block.
  rewrite try_except_else_finally_call, Hf.
  destruct a; reflexivity.
Qed.

(** The test raises the expected exception, or [RbacActionFailed]. *)
Lemma test_block_denied c a ee im args e :
  func args [] = Raise e ->
  isinstance e RbacInvalidService = false ->
  (isinstance e ee || isinstance e RbacActionFailed)%bool = true ->
  outcome (test c a ee im args) =
    after_finally
      (if a then
         Raise (mkexn Forbidden
                  (Some (percent_format "%s exception was: %s"
                           [percent_format
                              "Role %s was not allowed to perform %s."
                              [rbac_test_role; rule];
                            exc_str e])))
       else Return tt)
      (outcome (restore c)).
Proof.
  intros Hf Hs Hx. unfold test, test_block.
  rewrite try_except_else_finally_call, Hf, outcome_pair.
  unfold dispatch. rewrite Hs, Hx.
  destruct (truthy im), im, a; reflexivity.
Qed.

(** The test raises anything else that derives from [Exception]: the
    class of the exception is called with the message. *)
Lemma test_block_unexpected c a ee im args e :
  func args [] = Raise e ->
  isinstance e RbacInvalidService = false ->
  isinstance e ee = false ->
  isinstance e RbacActionFailed = false ->
  is_Exception e = true ->
  outcome (test c a ee im args) =
    after_finally
      (match instantiate (exc_type e) (unexpected_message exc_str ee e) with
       | Return value => Raise value
       | Raise e' => Raise e'
       end)
      (outcome (restore c)).
Proof.
  intros Hf Hs Hx Hg Hb. unfold test, test_block.
  rewrite try_except_else_finally_call, Hf, outcome_pair.
  unfold dispatch. rewrite Hs, Hx, Hg, Hb.
  unfold bind, emit, lift.
  match goal with
  | |- context [instantiate ?cls ?msg] =>
      change msg with (unexpected_message exc_str ee e)
  end.
  destruct (instantiate (exc_type e) (unexpected_message exc_str ee e));
    reflexivity.
Qed.

(** The test raises something that does not derive from [Exception]. *)
Lemma test_block_base_exception c a ee im args e :
  func args [] = Raise e ->
  is_Exception e = false ->
  isinstance e ee = false ->
  outcome (test c a ee im args)
  = after_finally (Raise e) (outcome (restore c)).
Proof.
  intros Hf Hb Hx.
  assert (Hs : isinstance e RbacInvalidService = false
               /\ isinstance e RbacActionFailed = false).
  { unfold isinstance, is_Exception in *.
    destruct (exc_type e); try discriminate; split; reflexivity. }
  destruct Hs as [Hs Hg]. unfold test, test_block.
  rewrite try_except_else_finally_call, Hf, outcome_pair.
  unfold dispatch. rewrite Hs, Hx, Hg, Hb. reflexivity.
Qed.

(** The outcome of the test block is what the [finally] clause leaves of
    the outcome pending before it. *)
Lemma test_block_pending c a ee im args :
  exists pending,
    outcome (test c a ee im args)
    = after_finally pending (outcome (restore c)).
Proof.
  unfold test, test_block.
  rewrite try_except_else_finally_call, outcome_pair.
  eexists. reflexivity.
Qed.

(** Whatever the test does, the test block calls it once, then logs, then
    runs the restoration step. *)
Lemma test_block_trace c a ee im args :
  exists logs,
    trace (test c a ee im args)
    = func_call args [] :: (logs ++ trace (restore c))%list
    /\ forallb is_log logs = true.
Proof.
  unfold test, test_block.
  rewrite try_except_else_finally_call, trace_pair.
  eexists. split; [reflexivity|].
  destruct (func args []) as [v|e].
  - destruct a; reflexivity.
  - unfold dispatch.
    destruct (isinstance e RbacInvalidService); [reflexivity|].
    destruct (isinstance e ee || isinstance e RbacActionFailed)%bool.
    + destruct (truthy im), im, a; reflexivity.
    + destruct (is_Exception e); [|reflexivity].
      unfold bind, emit, lift.
      match goal with
      | |- context [instantiate ?cls ?msg] => destruct (instantiate cls msg)
      end; reflexivity.
Qed.

(** The credentials are found, or [RbacResourceSetupFailed] is raised after
    one line of log. *)
Lemma credentials_block_cases args :
  (exists p u,
     credentials_block exc_str args
     = ([], Return (select_caller_ref args, p, u)))
  \/ (exists msg,
        credentials_block exc_str args
        = ([LOG_error msg], Raise (mkexn RbacResourceSetupFailed (Some msg)))).
Proof.
  unfold credentials_block, try_except.
  generalize (select_caller_ref args) as c. intros c.
  unfold getattr.
  destruct (dict_get (obj_attrs c) "auth_provider") as [ap|]; cbn;
    [|right; eexists; reflexivity].
  destruct (dict_get (obj_attrs ap) "credentials") as [cr|]; cbn;
    [|right; eexists; reflexivity].
  destruct (dict_get (obj_attrs cr) "project_id") as [pid|]; cbn;
    [|right; eexists; reflexivity].
  destruct (dict_get (obj_attrs cr) "user_id") as [uid|]; cbn;
    [|right; eexists; reflexivity].
  left. exists pid, uid. reflexivity.
Qed.

(** The verdict is computed with log lines and calls of the authority
    only. *)
Lemma allowed_block_trace c p u :
  forallb (fun ev => is_log ev || is_authority_event ev)%bool
    (trace (verdict c p u)) = true.
Proof.
  unfold verdict, allowed_block. clear run verdict test restore.
  destruct admin_only; [reflexivity|].
  unfold _format_extra_target_data.
  pose proof (for_items_trace c [] extra_target_data) as Ht.
  destruct (for_items c [] extra_target_data) as [t [extra|e]];
    simpl in Ht; subst t; [|reflexivity].
  unfold bind, emit, lift.
  destruct (RbacAuthority p u service extra) as [authority|e];
    [|reflexivity].
  destruct (get_permission authority rule rbac_test_role); reflexivity.
Qed.

Lemma _get_exception_type_trace code :
  forallb is_log (trace (_get_exception_type code)) = true.
Proof.
  unfold _get_exception_type.
  destruct (code =? 403)%Z; [reflexivity|].
  destruct (code =? 404)%Z; reflexivity.
Qed.

Lemma credentials_block_trace args :
  forallb is_log (trace (credentials_block exc_str args)) = true.
Proof.
  destruct (credentials_block_cases args) as [(p & u & ->)|(msg & ->)];
    reflexivity.
Qed.

(** An invocation either reaches the test block, or stops before it with
    an exception, having logged and queried the authority at most. *)
Lemma wrapper_cases args kwargs :
  (exists c p u a ee im,
     outcome (credentials_block exc_str args) = Return (c, p, u)
     /\ outcome (verdict c p u) = Return a
     /\ outcome (_get_exception_type expected_error_code) = Return (ee, im))
  \/ ((exists e, outcome (run args kwargs) = Raise e)
      /\ forallb (fun ev => is_log ev || is_authority_event ev)%bool
           (trace (run args kwargs)) = true).
Proof.
  destruct (credentials_block_cases args) as [(p & u & Hc)|(msg & Hc)].
  2:{ unfold run, action, wrapper. rewrite Hc.
      right; split; [eexists|]; reflexivity. }
  pose proof (allowed_block_trace (select_caller_ref args) p u) as Ht2.
  pose proof (_get_exception_type_trace expected_error_code) as Ht3.
  destruct (outcome (verdict (select_caller_ref args) p u)) as [a|e] eqn:Ha.
  - destruct (outcome (_get_exception_type expected_error_code))
      as [[ee im]|e] eqn:He.
    + left. exists (select_caller_ref args), p, u, a, ee, im.
      rewrite Hc. repeat split; assumption.
    + right. unfold run, action, wrapper. rewrite Hc, bind_ret_l.
      split.
      * exists e. erewrite outcome_bind_Return by exact Ha.
        apply outcome_bind_Raise. exact He.
      * erewrite trace_bind_Return by exact Ha.
        erewrite trace_bind_Raise by exact He.
        rewrite forallb_app. fold verdict. rewrite Ht2. simpl.
        apply forallb_weaken with (p := is_log); [|exact Ht3].
        intros ev ->. reflexivity.
  - right. unfold run, action, wrapper. rewrite Hc, bind_ret_l.
    split.
    + exists e. apply outcome_bind_Raise. exact Ha.
    + erewrite trace_bind_Raise by exact Ha. exact Ht2.
Qed.

End WrapperFacts.

(** ** The verdict against the observed outcome *)

Section Reconciliation.

Variable rbac_test_role : string.
Variable RbacAuthority :
  pyobj -> pyobj -> string -> dict pyobj -> result authority.
Variable exc_str : exn -> string.
Variable instantiate : exc_class -> string -> result exn.
Variable switch_role : pyobj -> pyobj -> bool -> result pyobj.
Variables service rule : string.
Variable admin_only : bool.
Variable expected_error_code : Z.
Variable extra_target_data : dict string.
Variable func : list pyobj -> dict pyobj -> result pyobj.

Let run := action rbac_test_role RbacAuthority exc_str instantiate
             switch_role service rule
             admin_only expected_error_code extra_target_data func.
Let verdict := allowed_block rbac_test_role RbacAuthority service rule
                 admin_only extra_target_data.
Let restore := restore_role switch_role.

Let forbidden := forbidden_failure rbac_test_role rule exc_str.
Let over_permission := over_permission_failure rbac_test_role rule.
Let unexpected := unexpected_failure exc_str.

(** The outcome of an invocation that reaches the test is the outcome of
    the test block. *)
Lemma outcome_reaches_test args kwargs c p u a ee im :
  outcome (credentials_block exc_str args) = Return (c, p, u) ->
  outcome (verdict c p u) = Return a ->
  outcome (_get_exception_type expected_error_code) = Return (ee, im) ->
  outcome (run args kwargs)
  = outcome (test_block rbac_test_role exc_str instantiate switch_role
               service rule func c a ee im args).
Proof.
  intros Hc Ha He. unfold run, verdict in *.
  erewrite wrapper_reaches_test by eassumption. reflexivity.
Qed.

(** The expected exception is not the signal of an invalid service. *)
Lemma expected_is_not_invalid_service ee im e :
  outcome (_get_exception_type expected_error_code) = Return (ee, im) ->
  isinstance e ee = true ->
  isinstance e RbacInvalidService = false.
Proof.
  intros He Hx. unfold isinstance in *. apply exc_class_eqb_eq in Hx.
  rewrite Hx.
  destruct (_get_exception_type_Return _ _ _ He)
    as [_ [(_ & -> & _)|(_ & -> & _)]]; reflexivity.
Qed.

(** C1, amended.  In an invocation that reaches the test with the verdict
    [allowed], and whose restoration step in the [finally] clause returns:
    when [allowed] is true, a test that returns makes the wrapper return
    normally (Pass) and a test that raises the expected exception makes it
    raise [Forbidden] (ForbiddenButShouldBeAllowed); when [allowed] is
    false, a test that returns makes it raise [RbacOverPermission]
    (OverPermissionButShouldBeForbidden) and a test that raises the
    expected exception makes it return normally (Pass).  When the
    restoration step raises, the wrapper raises its exception in all four
    cases. *)
Theorem validate_verdict_against_outcome args kwargs c p u allowed ee im :
  outcome (credentials_block exc_str args) = Return (c, p, u) ->
  outcome (verdict c p u) = Return allowed ->
  outcome (_get_exception_type expected_error_code) = Return (ee, im) ->
  (outcome (restore c) = Return tt ->
   (allowed = true ->
      (forall v, func args [] = Return v ->
         outcome (run args kwargs) = Return tt) /\
      (forall e, func args [] = Raise e -> isinstance e ee = true ->
         outcome (run args kwargs) = Raise (forbidden e))) /\
   (allowed = false ->
      (forall v, func args [] = Return v ->
         outcome (run args kwargs) = Raise over_permission) /\
      (forall e, func args [] = Raise e -> isinstance e ee = true ->
         outcome (run args kwargs) = Return tt))) /\
  (forall e_restore, outcome (restore c) = Raise e_restore ->
     (forall v, func args [] = Return v ->
        outcome (run args kwargs) = Raise e_restore) /\
     (forall e, func args [] = Raise e -> isinstance e ee = true ->
        outcome (run args kwargs) = Raise e_restore)).
Proof.
  intros Hc Ha He.
  pose proof (outcome_reaches_test args kwargs c p u allowed ee im Hc Ha He)
    as Hrun.
  assert (Hreturns : forall v, func args [] = Return v ->
            outcome (run args kwargs)
            = after_finally
                (if allowed then Return tt else Raise over_permission)
                (outcome (restore c))).
  { intros v Hf. rewrite Hrun.
    erewrite test_block_returns by exact Hf.
    unfold over_permission, over_permission_failure.
    rewrite <- over_permission_message.
    destruct allowed; reflexivity. }
  assert (Hdenied : forall e, func args [] = Raise e ->
            isinstance e ee = true ->
            outcome (run args kwargs)
            = after_finally
                (if allowed then Raise (forbidden e) else Return tt)
                (outcome (restore c))).
  { intros e Hf Hx. rewrite Hrun.
    erewrite test_block_denied
      by first [exact Hf
               | exact (expected_is_not_invalid_service ee im e He Hx)
               | rewrite Hx; reflexivity].
    unfold forbidden, forbidden_failure. rewrite <- forbidden_message.
    reflexivity. }
  split.
  - intros Hr. split; intros ->; split.
    + intros v Hf. rewrite (Hreturns v Hf), Hr. reflexivity.
    + intros e Hf Hx. rewrite (Hdenied e Hf Hx), Hr. reflexivity.
    + intros v Hf. rewrite (Hreturns v Hf), Hr. reflexivity.
    + intros e Hf Hx. rewrite (Hdenied e Hf Hx), Hr. reflexivity.
  - intros e_restore Hr. split.
    + intros v Hf. rewrite (Hreturns v Hf), Hr. reflexivity.
    + intros e Hf Hx. rewrite (Hdenied e Hf Hx), Hr. reflexivity.
Qed.

(** C8, amended.  [RbacActionFailed] raised by the test is reconciled as
    the expected exception is, whatever the expected error code: in an
    invocation whose restoration step returns, [Forbidden] is raised when
    the verdict was [allowed], and the wrapper returns normally when it
    was not.  When the restoration step raises, the wrapper raises its
    exception under either verdict. *)
Theorem action_failed_reconciled_as_expected args kwargs c p u allowed ee im e :
  outcome (credentials_block exc_str args) = Return (c, p, u) ->
  outcome (verdict c p u) = Return allowed ->
  outcome (_get_exception_type expected_error_code) = Return (ee, im) ->
  func args [] = Raise e ->
  isinstance e RbacActionFailed = true ->
  isinstance e ee = false /\
  (outcome (restore c) = Return tt ->
   (allowed = true -> outcome (run args kwargs) = Raise (forbidden e)) /\
   (allowed = false -> outcome (run args kwargs) = Return tt)) /\
  (forall e_restore, outcome (restore c) = Raise e_restore ->
     outcome (run args kwargs) = Raise e_restore).
Proof.
  intros Hc Ha He Hf Hg.
  pose proof (outcome_reaches_test args kwargs c p u allowed ee im Hc Ha He)
    as Hrun.
  assert (Hcls : exc_type e = RbacActionFailed).
  { apply exc_class_eqb_eq. exact Hg. }
  assert (Hs : isinstance e RbacInvalidService = false).
  { unfold isinstance. rewrite Hcls. reflexivity. }
  assert (Hx : isinstance e ee = false).
  { unfold isinstance. rewrite Hcls.
    destruct (_get_exception_type_Return _ _ _ He)
      as [_ [(_ & -> & _)|(_ & -> & _)]]; reflexivity. }
  assert (Hout : outcome (run args kwargs)
                 = after_finally
                     (if allowed then Raise (forbidden e) else Return tt)
                     (outcome (restore c))).
  { rewrite Hrun.
    erewrite test_block_denied
      by first [exact Hf | exact Hs | rewrite Hg; apply orb_true_r].
    unfold forbidden, forbidden_failure. rewrite <- forbidden_message.
    reflexivity. }
  split; [exact Hx|]. split.
  - intros Hr. split; intros ->; rewrite Hout, Hr; reflexivity.
  - intros e_restore Hr. rewrite Hout, Hr. reflexivity.
Qed.

(** C7, amended.  An error of the test that is neither
    [RbacInvalidService], nor the expected exception, nor
    [RbacActionFailed] never makes the wrapper return normally, under
    either verdict.  When the class of the error yields an instance for the
    message, and the restoration step returns, the wrapper raises that
    instance: it is of the class of the error, and its message is the text
    of the original error followed by the name of the exception that was
    expected (UnexpectedError).  Errors are the exceptions deriving from
    [Exception]; any other exception of the test propagates unchanged when
    the restoration step returns. *)
Theorem unrecognized_error_is_raised_again args kwargs c p u allowed ee im e :
  outcome (credentials_block exc_str args) = Return (c, p, u) ->
  outcome (verdict c p u) = Return allowed ->
  outcome (_get_exception_type expected_error_code) = Return (ee, im) ->
  func args [] = Raise e ->
  isinstance e RbacInvalidService = false ->
  isinstance e ee = false ->
  isinstance e RbacActionFailed = false ->
  (is_Exception e = true ->
   instantiate (exc_type e) (unexpected_message exc_str ee e)
   = Return (unexpected ee e) ->
   outcome (restore c) = Return tt ->
   outcome (run args kwargs) = Raise (unexpected ee e)) /\
  (is_Exception e = false ->
   outcome (restore c) = Return tt ->
   outcome (run args kwargs) = Raise e) /\
  outcome (run args kwargs) <> Return tt.
Proof.
  intros Hc Ha He Hf Hs Hx Hg.
  pose proof (outcome_reaches_test args kwargs c p u allowed ee im Hc Ha He)
    as Hrun.
  assert (Hraises : exists e', forall finished,
            after_finally (outcome (run args kwargs)) finished
            = after_finally
                (after_finally (Raise e') (outcome (restore c))) finished).
  { rewrite Hrun. destruct (is_Exception e) eqn:Hb.
    - erewrite test_block_unexpected by eassumption.
      destruct (instantiate (exc_type e) (unexpected_message exc_str ee e))
        as [value|e']; eexists; reflexivity.
    - erewrite test_block_base_exception by eassumption.
      eexists. reflexivity. }
  split; [|split].
  - intros Hb Hnew Hr. rewrite Hrun.
    erewrite test_block_unexpected by eassumption.
    unfold restore in Hr. rewrite Hnew, Hr. reflexivity.
  - intros Hb Hr. rewrite Hrun.
    erewrite test_block_base_exception by eassumption.
    unfold restore in Hr. rewrite Hr. reflexivity.
  - destruct Hraises as [e' Hraises]. intros Hpass.
    specialize (Hraises (Return tt)). rewrite Hpass in Hraises.
    simpl in Hraises. destruct (outcome (restore c)); discriminate.
Qed.

End Reconciliation.

(** A member who is allowed, and whose test passes. *)
Lemma validate_verdict_against_outcome_witness :
  outcome (action "member" (Sample.constant_authority true) Sample.exc_str
             Sample.instantiate Sample.switch_role
             "nova" "os_compute_api:servers:create" false 403 []
             Sample.passing_test [Sample.test_case] [])
  = Return tt.
Proof.
  exact (proj1
           (proj1
              (proj1
                 (validate_verdict_against_outcome
                    "member" (Sample.constant_authority true) Sample.exc_str
                    Sample.instantiate Sample.switch_role
                    "nova" "os_compute_api:servers:create" false 403 []
                    Sample.passing_test [Sample.test_case] []
                    Sample.test_case (PyStr "project-1") (PyStr "user-1")
                    true Forbidden None eq_refl eq_refl eq_refl)
                 eq_refl)
              eq_refl)
           PyNone eq_refl).
Defined.

(** C1, as stated, fails: a member who is allowed and whose test passes,
    on a test case without [rbac_utils].  The verdict is [allowed] and the
    test returns, yet the wrapper raises the [AttributeError] of the
    [finally] clause. *)
Lemma allowed_and_passing_yet_AttributeError :
  let invocation :=
    action "member" (Sample.constant_authority true) Sample.exc_str
      Sample.instantiate Sample.switch_role
      "nova" "os_compute_api:servers:create" false 403 []
      Sample.passing_test [Sample.test_case_no_rbac_utils] [] in
  outcome (allowed_block "member" (Sample.constant_authority true)
             "nova" "os_compute_api:servers:create" false []
             Sample.test_case_no_rbac_utils
             (PyStr "project-1") (PyStr "user-1"))
  = Return true
  /\ Sample.passing_test [Sample.test_case_no_rbac_utils] [] = Return PyNone
  /\ outcome invocation
     = Raise (mkexn AttributeError
                (Some "'ServersRbacTest' object has no attribute 'rbac_utils'"))
  /\ outcome invocation <> Return tt.
Proof.
  repeat split; try reflexivity. vm_compute. discriminate.
Qed.

(** A denied member, where 404 is expected and the test raises
    [RbacActionFailed]. *)
Lemma action_failed_reconciled_as_expected_witness :
  outcome (action "member" (Sample.constant_authority false) Sample.exc_str
             Sample.instantiate Sample.switch_role
             "neutron" "get_network" false 404 []
             (Sample.raising_test RbacActionFailed "Rbac action failed")
             [Sample.test_case] [])
  = Return tt.
Proof.
  exact (proj2
           (proj1
              (proj2
                 (action_failed_reconciled_as_expected
                    "member" (Sample.constant_authority false)
                    Sample.exc_str Sample.instantiate Sample.switch_role
                    "neutron" "get_network" false 404 []
                    (Sample.raising_test RbacActionFailed
                       "Rbac action failed")
                    [Sample.test_case] []
                    Sample.test_case (PyStr "project-1") (PyStr "user-1")
                    false NotFound _
                    (mkexn RbacActionFailed (Some "Rbac action failed"))
                    eq_refl eq_refl eq_refl eq_refl eq_refl))
              eq_refl)
           eq_refl).
Defined.

(** C8, as stated, fails: a denied member whose test raises
    [RbacActionFailed], on a test case without [rbac_utils].  The wrapper
    does not return normally: it raises the [AttributeError] of the
    [finally] clause. *)
Lemma action_failed_and_denied_yet_AttributeError :
  let invocation :=
    action "member" (Sample.constant_authority false) Sample.exc_str
      Sample.instantiate Sample.switch_role
      "neutron" "get_network" false 404 []
      (Sample.raising_test RbacActionFailed "Rbac action failed")
      [Sample.test_case_no_rbac_utils] [] in
  outcome (allowed_block "member" (Sample.constant_authority false)
             "neutron" "get_network" false []
             Sample.test_case_no_rbac_utils
             (PyStr "project-1") (PyStr "user-1"))
  = Return false
  /\ outcome invocation
     = Raise (mkexn AttributeError
                (Some "'ServersRbacTest' object has no attribute 'rbac_utils'"))
  /\ outcome invocation <> Return tt.
Proof.
  repeat split; try reflexivity. vm_compute. discriminate.
Qed.

(** A member who is denied, and whose test raises a server fault. *)
Lemma unrecognized_error_is_raised_again_witness :
  outcome (action "member" (Sample.constant_authority false) Sample.exc_str
             Sample.instantiate Sample.switch_role
             "nova" "os_compute_api:servers:create" false 403 []
             (Sample.raising_test (OtherException "ServerFault") "boom")
             [Sample.test_case] [])
  = Raise (mkexn (OtherException "ServerFault")
             (Some "boom An unexpected exception has occurred: Expected exception was Forbidden, which was not thrown.")).
Proof.
  exact (proj1
           (unrecognized_error_is_raised_again
              "member" (Sample.constant_authority false) Sample.exc_str
              Sample.instantiate Sample.switch_role
              "nova" "os_compute_api:servers:create" false 403 []
              (Sample.raising_test (OtherException "ServerFault") "boom")
              [Sample.test_case] []
              Sample.test_case (PyStr "project-1") (PyStr "user-1")
              false Forbidden None
              (mkexn (OtherException "ServerFault") (Some "boom"))
              eq_refl eq_refl eq_refl eq_refl eq_refl eq_refl eq_refl)
           eq_refl eq_refl eq_refl).
Defined.

(** C7, as stated, fails at two inputs.  A test that raises a server fault
    on a test case without [rbac_utils]: the wrapper raises the
    [AttributeError] of the [finally] clause, which carries neither the
    text of the fault nor the name of the expected exception.  A test that
    raises [JSONDecodeError], whose class does not take one message: the
    wrapper raises the [TypeError] of the constructor. *)
Lemma unrecognized_error_not_carried :
  outcome (action "member" (Sample.constant_authority false) Sample.exc_str
             Sample.instantiate Sample.switch_role
             "nova" "os_compute_api:servers:create" false 403 []
             (Sample.raising_test (OtherException "ServerFault") "boom")
             [Sample.test_case_no_rbac_utils] [])
  = Raise (mkexn AttributeError
             (Some "'ServersRbacTest' object has no attribute 'rbac_utils'"))
  /\ outcome (action "member" (Sample.constant_authority false)
                Sample.exc_str Sample.instantiate Sample.switch_role
                "nova" "os_compute_api:servers:create" false 403 []
                (Sample.raising_test (OtherException "JSONDecodeError")
                   "Expecting value: line 1 column 1 (char 0)")
                [Sample.test_case] [])
     = Raise (mkexn (OtherException "TypeError")
                (Some "__init__() missing 2 required positional arguments: 'doc' and 'pos'")).
Proof. split; reflexivity. Qed.

(** ** Role restoration *)

Section Restoration.

Variable rbac_test_role : string.
Variable RbacAuthority :
  pyobj -> pyobj -> string -> dict pyobj -> result authority.
Variable exc_str : exn -> string.
Variable instantiate : exc_class -> string -> result exn.
Variable switch_role : pyobj -> pyobj -> bool -> result pyobj.
Variables service rule : string.
Variable admin_only : bool.
Variable expected_error_code : Z.
Variable extra_target_data : dict string.
Variable func : list pyobj -> dict pyobj -> result pyobj.

Let run := action rbac_test_role RbacAuthority exc_str instantiate
             switch_role service rule
             admin_only expected_error_code extra_target_data func.
Let verdict := allowed_block rbac_test_role RbacAuthority service rule
                 admin_only extra_target_data.
Let restore := restore_role switch_role.

(** An invocation that reaches the test calls it once, and ends with the
    restoration step, which it has not run before. *)
Lemma restoration_after_test args kwargs c p u a ee im :
  outcome (credentials_block exc_str args) = Return (c, p, u) ->
  outcome (verdict c p u) = Return a ->
  outcome (_get_exception_type expected_error_code) = Return (ee, im) ->
  count is_func_call (trace (run args kwargs)) = 1
  /\ exists before,
       trace (run args kwargs) = (before ++ trace (restore c))%list
       /\ count is_role_restoration before = 0
       /\ exists pending,
            outcome (run args kwargs)
            = after_finally pending (outcome (restore c)).
Proof.
  intros Hc Ha He.
  unfold run, verdict, restore in *.
  erewrite wrapper_reaches_test by eassumption.
  destruct (test_block_trace rbac_test_role exc_str instantiate switch_role
              service rule func c a ee im args) as (logs & Ht & Hl).
  destruct (test_block_pending rbac_test_role exc_str instantiate
              switch_role service rule func c a ee im args)
    as (pending & Hp).
  pose proof (credentials_block_trace exc_str args) as H1.
  pose proof (allowed_block_trace rbac_test_role RbacAuthority service rule
                admin_only extra_target_data c p u) as H2.
  rewrite !trace_pair, outcome_pair, Ht.
  split.
  - rewrite !count_app, count_cons, count_app.
    rewrite (count_none _ _ _ H1 log_is_no_call).
    rewrite (count_none _ _ _ H2 verdict_event_is_no_call).
    rewrite (count_none _ _ _ Hl log_is_no_call).
    destruct (restore_role_trace switch_role c) as [-> | ->]; reflexivity.
  - exists (trace (credentials_block exc_str args)
            ++ trace (allowed_block rbac_test_role RbacAuthority service rule
                        admin_only extra_target_data c p u)
            ++ func_call args [] :: logs)%list.
    split; [rewrite <- !app_assoc; reflexivity|]. split.
    + rewrite !count_app, count_cons.
      rewrite (count_none _ _ _ H1 log_is_no_restoration).
      rewrite (count_none _ _ _ H2 verdict_event_is_no_restoration).
      rewrite (count_none _ _ _ Hl log_is_no_restoration). reflexivity.
    + exists pending. exact Hp.
Qed.

(** C2, amended.  The role switch is called at most as often as the test,
    which is at most once.  An invocation that reaches the test runs the
    restoration step last, whatever the test does and whatever the wrapper
    was about to return or raise: when [rbac_utils.switch_role] is found on
    the test case, the role switch is called exactly once, as the last
    event; when it is not found, the role switch is not called and the
    wrapper raises the [AttributeError] of the lookup.  An invocation that
    stops before the test, as one with an unsupported expected error code
    does, does not call the role switch. *)
Theorem role_restoration_follows_the_test args kwargs :
  count is_role_restoration (trace (run args kwargs))
  <= count is_func_call (trace (run args kwargs))
  /\ count is_func_call (trace (run args kwargs)) <= 1
  /\ (forall c p u a ee im,
        outcome (credentials_block exc_str args) = Return (c, p, u) ->
        outcome (verdict c p u) = Return a ->
        outcome (_get_exception_type expected_error_code) = Return (ee, im) ->
        (forall method,
           outcome (getattr_each c ["rbac_utils"; "switch_role"])
           = Return method ->
           count is_role_restoration (trace (run args kwargs)) = 1
           /\ exists before,
                trace (run args kwargs)
                = (before ++ [switch_role_call c false])%list)
        /\ (forall e,
              outcome (getattr_each c ["rbac_utils"; "switch_role"])
              = Raise e ->
              count is_role_restoration (trace (run args kwargs)) = 0
              /\ outcome (run args kwargs) = Raise e))
  /\ (expected_error_code <> 403%Z -> expected_error_code <> 404%Z ->
      count is_role_restoration (trace (run args kwargs)) = 0).
Proof.
  assert (Hreach : forall c p u a ee im,
            outcome (credentials_block exc_str args) = Return (c, p, u) ->
            outcome (verdict c p u) = Return a ->
            outcome (_get_exception_type expected_error_code)
            = Return (ee, im) ->
            (forall method,
               outcome (getattr_each c ["rbac_utils"; "switch_role"])
               = Return method ->
               count is_role_restoration (trace (run args kwargs)) = 1
               /\ exists before,
                    trace (run args kwargs)
                    = (before ++ [switch_role_call c false])%list)
            /\ (forall e,
                  outcome (getattr_each c ["rbac_utils"; "switch_role"])
                  = Raise e ->
                  count is_role_restoration (trace (run args kwargs)) = 0
                  /\ outcome (run args kwargs) = Raise e)).
  { intros c p u a ee im Hc Ha He.
    destruct (restoration_after_test args kwargs c p u a ee im Hc Ha He)
      as (_ & before & Ht & Hb & pending & Hp).
    unfold restore in *.
    destruct (restore_role_cases switch_role c)
      as [(m & Hm & Hr)|(e & Hm & _ & Hr)]; rewrite Hr in *.
    - split.
      + intros method _. split.
        * rewrite Ht, trace_pair, count_app, Hb. reflexivity.
        * exists before. rewrite Ht. reflexivity.
      + intros e Hlookup. rewrite Hlookup in Hm. discriminate.
    - split.
      + intros method Hlookup. rewrite Hlookup in Hm. discriminate.
      + intros e' Hlookup. rewrite Hlookup in Hm. injection Hm as ->.
        split.
        * rewrite Ht, trace_pair, count_app, Hb. reflexivity.
        * rewrite Hp. reflexivity. }
  destruct (wrapper_cases rbac_test_role RbacAuthority exc_str instantiate
              switch_role service rule
              admin_only expected_error_code extra_target_data func
              args kwargs)
    as [(c & p & u & a & ee & im & Hc & Ha & He)|[_ Hq]].
  - destruct (restoration_after_test args kwargs c p u a ee im Hc Ha He)
      as (Hf & before & Ht & Hb & _).
    assert (Hle : count is_role_restoration (trace (run args kwargs)) <= 1).
    { rewrite Ht, count_app, Hb. unfold restore.
      destruct (restore_role_trace switch_role c) as [-> | ->];
        simpl; auto. }
    split; [rewrite Hf; exact Hle|].
    split; [rewrite Hf; apply le_n|].
    split; [exact Hreach|].
    intros n3 n4.
    destruct (_get_exception_type_Return _ _ _ He)
      as [_ [(E & _)|(E & _)]]; contradiction.
  - fold run in Hq.
    pose proof (count_none is_func_call _ _ Hq verdict_event_is_no_call)
      as Hf.
    pose proof (count_none is_role_restoration _ _ Hq
                  verdict_event_is_no_restoration) as Hr.
    split; [rewrite Hf, Hr; apply le_n|].
    split; [rewrite Hf; apply Nat.le_0_l|].
    split; [exact Hreach|].
    intros _ _. exact Hr.
Qed.

End Restoration.

(** A member whose test raises a server fault: the role is restored. *)
Lemma role_restoration_follows_the_test_witness :
  count is_role_restoration
    (trace (action "member" (Sample.constant_authority false) Sample.exc_str
              Sample.instantiate Sample.switch_role
              "nova" "os_compute_api:servers:create" false 403 []
              (Sample.raising_test (OtherException "ServerFault") "boom")
              [Sample.test_case] []))
  = 1.
Proof.
  exact (proj1
           (proj1
              (proj1
                 (proj2
                    (proj2
                       (role_restoration_follows_the_test
                          "member" (Sample.constant_authority false)
                          Sample.exc_str
                          Sample.instantiate Sample.switch_role
                          "nova" "os_compute_api:servers:create" false 403
                          []
                          (Sample.raising_test
                             (OtherException "ServerFault") "boom")
                          [Sample.test_case] [])))
                 Sample.test_case (PyStr "project-1") (PyStr "user-1")
                 false Forbidden None eq_refl eq_refl eq_refl)
              (PyInstance (mkclass "method" false) []) eq_refl)).
Defined.

(** C2, as stated, fails: with the expected error code 500 the verdict is
    computed, [RbacInvalidErrorCode] is raised, and the role is not
    restored. *)
Lemma role_restoration_skipped_on_invalid_error_code :
  let invocation :=
    action "member" (Sample.constant_authority true) Sample.exc_str
      Sample.instantiate Sample.switch_role
      "nova" "os_compute_api:servers:create" false 500 []
      Sample.passing_test [Sample.test_case] [] in
  outcome (allowed_block "member" (Sample.constant_authority true)
             "nova" "os_compute_api:servers:create" false []
             Sample.test_case (PyStr "project-1") (PyStr "user-1"))
  = Return true
  /\ outcome invocation = Raise (mkexn RbacInvalidErrorCode None)
  /\ count is_role_restoration (trace invocation) = 0
  /\ count is_role_restoration (trace invocation) <> 1.
Proof.
  repeat split; try reflexivity. vm_compute. discriminate.
Qed.

(** ** The expected error code *)

(** C5.  403 is classified as [Forbidden] without an irregular notice, 404
    as [NotFound] with one, and any other code raises
    [RbacInvalidErrorCode]; an invocation with such a code never calls the
    test, and raises [RbacInvalidErrorCode] once the credentials are found
    and the verdict is computed. *)
Theorem expected_error_code_classified :
  _get_exception_type 403 = ([], Return (Forbidden, None))
  /\ (exists template,
        _get_exception_type 404 = ([], Return (NotFound, Some template))
        /\ truthy (Some template) = true)
  /\ (forall code, code <> 403%Z -> code <> 404%Z ->
        outcome (_get_exception_type code)
        = Raise (mkexn RbacInvalidErrorCode None))
  /\ (forall rbac_test_role RbacAuthority exc_str instantiate
      switch_role service rule admin_only
             code extra_target_data func args kwargs,
        code <> 403%Z -> code <> 404%Z ->
        let invocation :=
          action rbac_test_role RbacAuthority exc_str instantiate
              switch_role service rule
            admin_only code extra_target_data func args kwargs in
        count is_func_call (trace invocation) = 0
        /\ (forall c p u a,
              outcome (credentials_block exc_str args) = Return (c, p, u) ->
              outcome (allowed_block rbac_test_role RbacAuthority service
                         rule admin_only extra_target_data c p u)
              = Return a ->
              outcome invocation = Raise (mkexn RbacInvalidErrorCode None))).
Proof.
  split; [reflexivity|].
  split; [eexists; split; reflexivity|].
  split; [exact _get_exception_type_Raise|].
  intros role RA exc_str instantiate
      switch_role service rule admin_only code extra func args kwargs
    n3 n4 invocation.
  pose proof (_get_exception_type_Raise code n3 n4) as Hraise.
  split.
  - destruct (wrapper_cases role RA exc_str instantiate
      switch_role service rule admin_only code
                extra func args kwargs)
      as [(c & p & u & a & ee & im & _ & _ & He)|[_ Hq]].
    + rewrite Hraise in He. discriminate.
    + exact (count_none _ _ _ Hq verdict_event_is_no_call).
  - intros c p u a Hc Ha. subst invocation. unfold action, wrapper.
    erewrite outcome_bind_Return by exact Hc. cbv beta iota.
    erewrite outcome_bind_Return by exact Ha.
    apply outcome_bind_Raise. exact Hraise.
Qed.

(** An allowed member, with the expected error code 500. *)
Lemma expected_error_code_classified_witness :
  outcome (action "member" (Sample.constant_authority true) Sample.exc_str
             Sample.instantiate Sample.switch_role
             "nova" "os_compute_api:servers:create" false 500 []
             Sample.passing_test [Sample.test_case] [])
  = Raise (mkexn RbacInvalidErrorCode None).
Proof.
  refine (proj2
            (proj2 (proj2 (proj2 expected_error_code_classified))
               "member" (Sample.constant_authority true) Sample.exc_str
               Sample.instantiate Sample.switch_role
               "nova" "os_compute_api:servers:create" false 500%Z []
               Sample.passing_test [Sample.test_case] [] _ _)
            Sample.test_case (PyStr "project-1") (PyStr "user-1") true
            eq_refl eq_refl); discriminate.
Defined.

(** ** The admin-only shortcut *)

(** C6.  With [admin_only] set, the verdict is the comparison of the
    configured role with ["admin"], computed after one line of log; the
    invocation neither constructs the authority nor asks it for a
    permission, and does not depend on the authority at all. *)
Theorem admin_only_skips_the_authority
    rbac_test_role RbacAuthority exc_str instantiate
        switch_role service rule expected_error_code
    extra_target_data func args kwargs :
  (forall c p u,
     exists msg,
       allowed_block rbac_test_role RbacAuthority service rule true
         extra_target_data c p u
       = ([LOG_info msg], Return (String.eqb rbac_test_role "admin")))
  /\ count is_authority_event
       (trace (action rbac_test_role RbacAuthority exc_str instantiate
           switch_role service rule true
                 expected_error_code extra_target_data func args kwargs))
     = 0
  /\ (forall RbacAuthority',
        action rbac_test_role RbacAuthority exc_str instantiate
            switch_role service rule true
          expected_error_code extra_target_data func args kwargs
        = action rbac_test_role RbacAuthority' exc_str instantiate
            switch_role service rule true
            expected_error_code extra_target_data func args kwargs).
Proof.
  split; [intros c p u; eexists; reflexivity|].
  split; [|intros RA'; reflexivity].
  unfold action, wrapper.
  destruct (credentials_block_cases exc_str args)
    as [(p & u & Hc)|(msg & Hc)]; rewrite Hc; [|reflexivity].
  rewrite bind_ret_l.
  erewrite trace_bind_Return by reflexivity.
  rewrite count_app.
  pose proof (_get_exception_type_trace expected_error_code) as Ht3.
  destruct (outcome (_get_exception_type expected_error_code))
    as [[ee im]|e] eqn:He.
  - erewrite trace_bind_Return by exact He. rewrite count_app.
    rewrite (count_none _ _ _ Ht3 log_is_no_authority_event).
    destruct (test_block_trace rbac_test_role exc_str instantiate
        switch_role service rule func
                (select_caller_ref args)
                (String.eqb rbac_test_role "admin") ee im args)
      as (logs & Ht & Hl).
    rewrite Ht, count_cons, count_app.
    rewrite (count_none _ _ _ Hl log_is_no_authority_event).
    destruct (restore_role_trace switch_role (select_caller_ref args))
      as [-> | ->]; reflexivity.
  - erewrite trace_bind_Raise by exact He.
    rewrite (count_none _ _ _ Ht3 log_is_no_authority_event). reflexivity.
Qed.

(** ** Credentials *)

(** The credentials block raises when [project_id] or [user_id] is not
    reached from [caller_ref]. *)
Lemma credentials_block_raises exc_str args :
  (exists e,
     outcome (getattr_each (select_caller_ref args)
                ["auth_provider"; "credentials"; "project_id"]) = Raise e)
  \/ (exists e,
        outcome (getattr_each (select_caller_ref args)
                   ["auth_provider"; "credentials"; "user_id"]) = Raise e) ->
  exists msg,
    credentials_block exc_str args
    = ([LOG_error msg], Raise (mkexn RbacResourceSetupFailed (Some msg))).
Proof.
  unfold credentials_block, try_except, getattr_each.
  generalize (select_caller_ref args) as c. intros c.
  unfold getattr.
  destruct (dict_get (obj_attrs c) "auth_provider") as [ap|]; cbn;
    [|intros _; eexists; reflexivity].
  destruct (dict_get (obj_attrs ap) "credentials") as [cr|]; cbn;
    [|intros _; eexists; reflexivity].
  destruct (dict_get (obj_attrs cr) "project_id") as [pid|]; cbn;
    [|intros _; eexists; reflexivity].
  destruct (dict_get (obj_attrs cr) "user_id") as [uid|]; cbn;
    [|intros _; eexists; reflexivity].
  intros [[e H]|[e H]]; discriminate.
Qed.

(** C9.  When [project_id] or [user_id] cannot be reached from the test
    case through [auth_provider.credentials] (in particular when no test
    case is passed, so that [caller_ref] is [None]), the wrapper logs one
    error and raises [RbacResourceSetupFailed]: the authority is not
    queried, the test is not called, and the exception reaches the
    caller. *)
Theorem missing_credentials_fail_fast
    rbac_test_role RbacAuthority exc_str instantiate
        switch_role service rule admin_only
    expected_error_code extra_target_data func args kwargs :
  (exists e,
     outcome (getattr_each (select_caller_ref args)
                ["auth_provider"; "credentials"; "project_id"]) = Raise e)
  \/ (exists e,
        outcome (getattr_each (select_caller_ref args)
                   ["auth_provider"; "credentials"; "user_id"]) = Raise e)
  \/ select_caller_ref args = PyNone ->
  let invocation :=
    action rbac_test_role RbacAuthority exc_str instantiate
        switch_role service rule admin_only
      expected_error_code extra_target_data func args kwargs in
  (exists msg,
     invocation
     = ([LOG_error msg], Raise (mkexn RbacResourceSetupFailed (Some msg))))
  /\ count is_authority_event (trace invocation) = 0
  /\ count is_func_call (trace invocation) = 0.
Proof.
  intros H invocation.
  assert (Hraise : exists msg,
             credentials_block exc_str args
             = ([LOG_error msg],
                Raise (mkexn RbacResourceSetupFailed (Some msg)))).
  { apply credentials_block_raises.
    destruct H as [H|[H|H]]; [left; exact H|right; exact H|].
    left. rewrite H. eexists. reflexivity. }
  destruct Hraise as (msg & Hc).
  assert (Hinv : invocation
                 = ([LOG_error msg],
                    Raise (mkexn RbacResourceSetupFailed (Some msg)))).
  { subst invocation. unfold action, wrapper. rewrite Hc. reflexivity. }
  rewrite Hinv. split; [exists msg; reflexivity|]. split; reflexivity.
Qed.

(** A test case whose credentials have no [user_id]. *)
Lemma missing_credentials_fail_fast_witness :
  exists msg,
    action "member" (Sample.constant_authority true) Sample.exc_str
      Sample.instantiate Sample.switch_role
      "nova" "os_compute_api:servers:create" false 403 []
      Sample.passing_test [Sample.test_case_no_user] []
    = ([LOG_error msg], Raise (mkexn RbacResourceSetupFailed (Some msg))).
Proof.
  exact (proj1
           (missing_credentials_fail_fast
              "member" (Sample.constant_authority true) Sample.exc_str
              Sample.instantiate Sample.switch_role
              "nova" "os_compute_api:servers:create" false 403 []
              Sample.passing_test [Sample.test_case_no_user] []
              (or_intror (or_introl (ex_intro _ _ eq_refl))))).
Defined.

(** ** Keyword arguments *)

(** C10.  The keyword arguments of an invocation are dropped: the
    invocation is the one without keyword arguments, every call of the
    test it makes passes the positional arguments and no keyword argument,
    and the invocation depends on the test only through what the test does
    on the positional arguments alone. *)
Theorem keyword_arguments_are_dropped
    rbac_test_role RbacAuthority exc_str instantiate
        switch_role service rule admin_only
    expected_error_code extra_target_data func args kwargs :
  let invocation :=
    action rbac_test_role RbacAuthority exc_str instantiate
        switch_role service rule admin_only
      expected_error_code extra_target_data func args kwargs in
  invocation
  = action rbac_test_role RbacAuthority exc_str instantiate
      switch_role service rule admin_only
      expected_error_code extra_target_data func args []
  /\ (forall a k, In (func_call a k) (trace invocation) ->
        a = args /\ k = [])
  /\ (forall func' : list pyobj -> dict pyobj -> result pyobj,
        func' args [] = func args [] ->
        action rbac_test_role RbacAuthority exc_str instantiate
            switch_role service rule admin_only
          expected_error_code extra_target_data func' args kwargs
        = invocation).
Proof.
  intros invocation. split; [reflexivity|]. split.
  - intros a k Hin. subst invocation.
    assert (Hq : forall q t, forallb q t = true ->
                   q (func_call a k) = false -> ~ In (func_call a k) t).
    { intros q t Hall Hfalse Hin'.
      rewrite forallb_forall in Hall. apply Hall in Hin'. congruence. }
    destruct (wrapper_cases rbac_test_role RbacAuthority exc_str instantiate
        switch_role service rule
                admin_only expected_error_code extra_target_data func
                args kwargs)
      as [(c & p & u & al & ee & im & Hc & Ha & He)|[_ Hquiet]].
    + erewrite wrapper_reaches_test in Hin by eassumption.
      rewrite trace_pair in Hin.
      destruct (test_block_trace rbac_test_role exc_str instantiate
          switch_role service rule func
                  c al ee im args) as (logs & Ht & Hl).
      rewrite Ht in Hin.
      apply in_app_or in Hin. destruct Hin as [Hin|Hin].
      { exfalso. revert Hin. apply (Hq is_log); [|reflexivity].
        apply credentials_block_trace. }
      apply in_app_or in Hin. destruct Hin as [Hin|Hin].
      { exfalso. revert Hin.
        apply (Hq (fun ev => is_log ev || is_authority_event ev)%bool);
          [|reflexivity].
        apply allowed_block_trace. }
      destruct Hin as [Hin|Hin]; [injection Hin as <- <-; auto|].
      apply in_app_or in Hin. destruct Hin as [Hin|Hin].
      { exfalso. revert Hin. apply (Hq is_log); [exact Hl|reflexivity]. }
      destruct (restore_role_trace switch_role c) as [Hr|Hr];
        rewrite Hr in Hin; [destruct Hin|].
      destruct Hin as [Hin|[]]. discriminate.
    + exfalso. revert Hin.
      apply (Hq (fun ev => is_log ev || is_authority_event ev)%bool);
        [exact Hquiet|reflexivity].
  - intros func' Hsame. subst invocation.
    unfold action, wrapper, test_block. rewrite Hsame. reflexivity.
Qed.

(** A test that would reject a keyword argument passes when called with
    one through the wrapper. *)
Lemma keyword_arguments_are_dropped_witness :
  action "member" (Sample.constant_authority true) Sample.exc_str
    Sample.instantiate Sample.switch_role
    "nova" "os_compute_api:servers:create" false 403 []
    Sample.keyword_averse_test [Sample.test_case] [("server", PyStr "s-1")]
  = action "member" (Sample.constant_authority true) Sample.exc_str
      Sample.instantiate Sample.switch_role
      "nova" "os_compute_api:servers:create" false 403 []
      Sample.passing_test [Sample.test_case] [("server", PyStr "s-1")].
Proof.
  exact (proj2
           (proj2
              (keyword_arguments_are_dropped
                 "member" (Sample.constant_authority true) Sample.exc_str
                 Sample.instantiate Sample.switch_role
                 "nova" "os_compute_api:servers:create" false 403 []
                 Sample.passing_test [Sample.test_case]
                 [("server", PyStr "s-1")]))
           Sample.keyword_averse_test eq_refl).
Defined.

(** ** The resolver of extra target data *)

Lemma getattr_each_app v l1 l2 :
  getattr_each v (l1 ++ l2)
  = (v' <- getattr_each v l1;; getattr_each v' l2).
Proof.
  revert v. induction l1 as [|a l1 IH]; intros v; cbn [app getattr_each].
  - unfold ret. rewrite bind_ret_l. reflexivity.
  - unfold getattr. destruct (dict_get (obj_attrs v) a) as [w|].
    + unfold ret. rewrite !bind_ret_l. apply IH.
    + reflexivity.
Qed.

(** A segment that the value reached so far lacks makes the inner loop
    raise [AttributeError]. *)
Lemma getattr_each_missing v before seg after v1 :
  outcome (getattr_each v before) = Return v1 ->
  dict_get (obj_attrs v1) seg = None ->
  getattr_each v (before ++ seg :: after)
  = ([], Raise (mkexn AttributeError
                  (Some ("'" ++ type_name v1
                         ++ "' object has no attribute '" ++ seg ++ "'")))).
Proof.
  intros Hv Hseg. rewrite getattr_each_app.
  pose proof (getattr_each_trace v before) as Ht.
  destruct (getattr_each v before) as [t r]. simpl in Hv, Ht. subst t r.
  rewrite bind_ret_l. cbn [getattr_each]. unfold getattr. rewrite Hseg.
  reflexivity.
Qed.

(** The outer loop, after the entries [before], goes on from the value
    they reached. *)
Lemma for_items_app v d before rest v0 :
  attr_value_after v before = Some v0 ->
  exists d', for_items v d (before ++ rest) = for_items v0 d' rest.
Proof.
  revert v d. induction before as [|[k path] before IH]; intros v d Hafter.
  - simpl in Hafter. injection Hafter as ->. exists d. reflexivity.
  - simpl in Hafter.
    change (for_items v d (((k, path) :: before) ++ rest))
      with (w <- getattr_each v (split "." path);;
            for_items w (dict_set d k w) (before ++ rest)).
    pose proof (getattr_each_trace v (split "." path)) as Ht.
    destruct (getattr_each v (split "." path)) as [t [w|e]];
      simpl in Ht, Hafter; subst t; [|discriminate].
    rewrite bind_ret_l. apply IH. exact Hafter.
Qed.

(** With one entry, the resolver does what the specification says. *)
Lemma _format_extra_target_data_single context attribute_name path_string :
  _format_extra_target_data context [(attribute_name, path_string)]
  = resolve context [(attribute_name, path_string)].
Proof. reflexivity. Qed.

(** With two entries, the second path is followed from the value [v1] that
    the first path reached. *)
Lemma _format_extra_target_data_two_entries test_obj k1 p1 k2 p2 :
  _format_extra_target_data test_obj [(k1, p1); (k2, p2)]
  = (v1 <- getattr_each test_obj (split "." p1);;
     v2 <- getattr_each v1 (split "." p2);;
     ret (dict_set [(k1, v1)] k2 v2)).
Proof. reflexivity. Qed.

(** C3, at a mapping with two entries.  The path of the second entry is
    followed from the value the first entry reached, not from the test
    case: ["name"] yields the name of the [auth_provider], where the
    resolver of the specification yields the name of the test case; and two
    paths written from the test case, as the docstring has them, raise
    [AttributeError] at the second entry. *)
Theorem second_entry_resolved_from_first_value :
  outcome (_format_extra_target_data Sample.test_case
             [("first", "auth_provider"); ("second", "name")])
  = Return [("first", Sample.auth_provider);
            ("second", PyStr "provider-name")]
  /\ outcome (resolve Sample.test_case
                [("first", "auth_provider"); ("second", "name")])
     = Return [("first", Sample.auth_provider);
               ("second", PyStr "test-name")]
  /\ outcome (_format_extra_target_data Sample.test_case
                [("trust.trustor_user_id",
                  "auth_provider.credentials.user_id");
                 ("trust.trustee_project_id",
                  "auth_provider.credentials.project_id")])
     = Raise (mkexn AttributeError
                (Some "'str' object has no attribute 'auth_provider'"))
  /\ outcome (resolve Sample.test_case
                [("trust.trustor_user_id",
                  "auth_provider.credentials.user_id");
                 ("trust.trustee_project_id",
                  "auth_provider.credentials.project_id")])
     = Return [("trust.trustor_user_id", PyStr "user-1");
               ("trust.trustee_project_id", PyStr "project-1")].
Proof. repeat split; reflexivity. Qed.

(** C4.  When the loop has reached [v0] after the entries [before], and a
    segment [seg] of the next path does not exist on the value [v1] reached
    so far, the resolver raises [AttributeError] for that segment; a
    wrapper that resolves extra target data (one without [admin_only])
    raises this very exception to its caller: nothing is logged, the
    authority is not constructed, the test is not called, and no other
    exception or normal return takes its place. *)
Theorem broken_path_raises_AttributeError
    test_obj before attribute path after v0 segs_before seg segs_after v1 :
  attr_value_after test_obj before = Some v0 ->
  split "." path = (segs_before ++ seg :: segs_after)%list ->
  outcome (getattr_each v0 segs_before) = Return v1 ->
  dict_get (obj_attrs v1) seg = None ->
  let extra_target_data := (before ++ (attribute, path) :: after)%list in
  let error :=
    mkexn AttributeError
      (Some ("'" ++ type_name v1 ++ "' object has no attribute '"
             ++ seg ++ "'")) in
  _format_extra_target_data test_obj extra_target_data = ([], Raise error)
  /\ (forall rbac_test_role RbacAuthority exc_str instantiate
      switch_role service rule
             expected_error_code func args kwargs p u,
        outcome (credentials_block exc_str args) = Return (test_obj, p, u) ->
        action rbac_test_role RbacAuthority exc_str instantiate
            switch_role service rule false
          expected_error_code extra_target_data func args kwargs
        = ([], Raise error)).
Proof.
  intros Hafter Hsplit Hv1 Hseg extra_target_data error.
  assert (Hresolve : _format_extra_target_data test_obj extra_target_data
                     = ([], Raise error)).
  { unfold _format_extra_target_data. subst extra_target_data.
    destruct (for_items_app test_obj [] before ((attribute, path) :: after)
                v0 Hafter) as (d' & ->).
    simpl. rewrite Hsplit.
    rewrite (getattr_each_missing v0 segs_before seg segs_after v1 Hv1 Hseg).
    reflexivity. }
  split; [exact Hresolve|].
  intros role RA exc_str instantiate
      switch_role service rule code func args kwargs p u Hc.
  unfold action, wrapper.
  destruct (credentials_block_cases exc_str args)
    as [(p' & u' & Hc')|(msg & Hc')]; rewrite Hc' in *; [|discriminate].
  simpl in Hc. injection Hc as Hobj -> ->.
  rewrite bind_ret_l. unfold allowed_block. rewrite Hobj, Hresolve.
  reflexivity.
Qed.

(** The broken path [auth_provider.missing.user_id]. *)
Lemma broken_path_raises_AttributeError_witness :
  action "member" (Sample.constant_authority true) Sample.exc_str
    Sample.instantiate Sample.switch_role
    "keystone" "identity:create_trust" false 403
    [("trust.trustor_user_id", "auth_provider.missing.user_id")]
    Sample.passing_test [Sample.test_case] []
  = ([], Raise (mkexn AttributeError
                  (Some "'KeystoneV3AuthProvider' object has no attribute 'missing'"))).
Proof.
  exact (proj2
           (broken_path_raises_AttributeError
              Sample.test_case [] "trust.trustor_user_id"
              "auth_provider.missing.user_id" []
              Sample.test_case ["auth_provider"] "missing" ["user_id"]
              Sample.auth_provider eq_refl eq_refl eq_refl eq_refl)
           "member" (Sample.constant_authority true) Sample.exc_str
           Sample.instantiate Sample.switch_role
           "keystone" "identity:create_trust" 403%Z
           Sample.passing_test [Sample.test_case] []
           (PyStr "project-1") (PyStr "user-1") eq_refl).
Defined.

(** * Further properties of the module *)

(** ** Finer facts about the blocks *)

Lemma credentials_block_Return exc_str args c p u :
  outcome (credentials_block exc_str args) = Return (c, p, u) ->
  credentials_block exc_str args = ([], Return (c, p, u))
  /\ c = select_caller_ref args.
Proof.
  intros H.
  destruct (credentials_block_cases exc_str args)
    as [(p' & u' & E)|(msg & E)]; rewrite E in *; [|discriminate].
  simpl in H. injection H as <- <- <-. split; reflexivity.
Qed.

Lemma invalid_service_message service text :
  percent_format "%s RbacInvalidService was: %s"
    [percent_format "%s is not a valid service." [service]; text]
  = (service ++ " is not a valid service.")
    ++ " RbacInvalidService was: " ++ text.
Proof.
  change (percent_format "%s RbacInvalidService was: %s"
            [percent_format "%s is not a valid service." [service]; text])
    with ((service ++ " is not a valid service.")
          ++ " RbacInvalidService was: " ++ text ++ EmptyString).
  now rewrite append_empty_r.
Qed.

Section BlockFacts.

Variable rbac_test_role : string.
Variable RbacAuthority :
  pyobj -> pyobj -> string -> dict pyobj -> result authority.
Variable exc_str : exn -> string.
Variable instantiate : exc_class -> string -> result exn.
Variable switch_role : pyobj -> pyobj -> bool -> result pyobj.
Variables service rule : string.
Variable extra_target_data : dict string.
Variable func : list pyobj -> dict pyobj -> result pyobj.

(** The test signals an invalid service. *)
Lemma test_block_invalid_service c a ee im args e :
  func args [] = Raise e ->
  isinstance e RbacInvalidService = true ->
  test_block rbac_test_role exc_str instantiate switch_role service rule
    func c a ee im args
  = ((func_call args []
        :: LOG_error (service ++ " is not a valid service.")
        :: trace (restore_role switch_role c))%list,
     after_finally (Raise (invalid_service_failure service exc_str e))
       (outcome (restore_role switch_role c))).
Proof.
  intros Hf Hs. unfold test_block.
  rewrite try_except_else_finally_call, Hf.
  unfold dispatch. rewrite Hs.
  unfold invalid_service_failure. rewrite <- invalid_service_message.
  reflexivity.
Qed.

(** Without [admin_only], once the paths are resolved and the authority
    answers, the verdict is its answer. *)
Lemma allowed_block_authority c p u extra authority b :
  _format_extra_target_data c extra_target_data = ([], Return extra) ->
  RbacAuthority p u service extra = Return authority ->
  get_permission authority rule rbac_test_role = Return b ->
  allowed_block rbac_test_role RbacAuthority service rule false
    extra_target_data c p u
  = ([RbacAuthority_init p u service extra;
      get_permission_call rule rbac_test_role],
     Return b).
Proof.
  intros Hx Hnew Hget. unfold allowed_block.
  rewrite Hx, bind_ret_l. unfold bind, emit, lift.
  rewrite Hnew, Hget. reflexivity.
Qed.

End BlockFacts.

Lemma _format_extra_target_data_eta test_obj items :
  _format_extra_target_data test_obj items
  = ([], outcome (_format_extra_target_data test_obj items)).
Proof.
  unfold _format_extra_target_data.
  pose proof (for_items_trace test_obj [] items) as Ht.
  destruct (for_items test_obj [] items) as [t r]. simpl in *.
  now subst t.
Qed.

(** ** The test signals an invalid service *)

(** X1.  When the test raises [RbacInvalidService], the wrapper logs that
    the service is not valid, under either verdict and either supported
    error code, and then runs the restoration step, which is the last
    thing it does.  It raises [NotFound] with the logged message and the
    text of the signal, unless the restoration step raises, whose
    exception it then raises instead. *)
Theorem invalid_service_raises_NotFound
    rbac_test_role RbacAuthority exc_str instantiate switch_role
    service rule admin_only
    expected_error_code extra_target_data func args kwargs
    c p u allowed ee im e :
  outcome (credentials_block exc_str args) = Return (c, p, u) ->
  outcome (allowed_block rbac_test_role RbacAuthority service rule
             admin_only extra_target_data c p u) = Return allowed ->
  outcome (_get_exception_type expected_error_code) = Return (ee, im) ->
  func args [] = Raise e ->
  isinstance e RbacInvalidService = true ->
  action rbac_test_role RbacAuthority exc_str instantiate switch_role
    service rule admin_only
    expected_error_code extra_target_data func args kwargs
  = ((trace (allowed_block rbac_test_role RbacAuthority service rule
               admin_only extra_target_data c p u)
      ++ func_call args []
           :: LOG_error (service ++ " is not a valid service.")
           :: trace (restore_role switch_role c))%list,
     after_finally (Raise (invalid_service_failure service exc_str e))
       (outcome (restore_role switch_role c))).
Proof.
  intros Hc Ha He Hf Hs.
  erewrite wrapper_reaches_test by eassumption.
  destruct (credentials_block_Return _ _ _ _ _ Hc) as [-> _].
  rewrite (test_block_invalid_service rbac_test_role exc_str instantiate
             switch_role service rule func c allowed ee im args e Hf Hs).
  reflexivity.
Qed.

(** A denied member, 404 expected, and a test that signals an invalid
    service. *)
Lemma invalid_service_raises_NotFound_witness :
  outcome (action "member" (Sample.constant_authority false) Sample.exc_str
             Sample.instantiate Sample.switch_role
             "nova" "os_compute_api:servers:create" false 404 []
             (Sample.raising_test RbacInvalidService "no such service")
             [Sample.test_case] [])
  = Raise (invalid_service_failure "nova" Sample.exc_str
             (mkexn RbacInvalidService (Some "no such service"))).
Proof.
  exact (f_equal outcome
           (invalid_service_raises_NotFound
              "member" (Sample.constant_authority false) Sample.exc_str
              Sample.instantiate Sample.switch_role
              "nova" "os_compute_api:servers:create" false 404 []
              (Sample.raising_test RbacInvalidService "no such service")
              [Sample.test_case] []
              Sample.test_case (PyStr "project-1") (PyStr "user-1")
              false NotFound _
              (mkexn RbacInvalidService (Some "no such service"))
              eq_refl eq_refl eq_refl eq_refl eq_refl)).
Defined.

(** ** The authority *)

(** X2.  Without [admin_only], once the credentials are found and the
    paths of the extra target data are resolved, the authority is
    constructed once, with the project, the user, the service and the
    resolved data, and asked once, for the rule and the configured role;
    the verdict of the wrapper is its answer. *)
Theorem authority_consulted_once
    rbac_test_role RbacAuthority service rule extra_target_data
    c p u extra authority b :
  outcome (_format_extra_target_data c extra_target_data) = Return extra ->
  RbacAuthority p u service extra = Return authority ->
  get_permission authority rule rbac_test_role = Return b ->
  allowed_block rbac_test_role RbacAuthority service rule false
    extra_target_data c p u
  = ([RbacAuthority_init p u service extra;
      get_permission_call rule rbac_test_role],
     Return b).
Proof.
  intros Hx Hnew Hget.
  apply allowed_block_authority with (authority := authority);
    try assumption.
  rewrite _format_extra_target_data_eta, Hx. reflexivity.
Qed.

(** An authority that allows, asked with one resolved path. *)
Lemma authority_consulted_once_witness :
  allowed_block "member" (Sample.constant_authority true)
    "keystone" "identity:create_trust" false
    [("trust.trustor_user_id", "auth_provider.credentials.user_id")]
    Sample.test_case (PyStr "project-1") (PyStr "user-1")
  = ([RbacAuthority_init (PyStr "project-1") (PyStr "user-1") "keystone"
        [("trust.trustor_user_id", PyStr "user-1")];
      get_permission_call "identity:create_trust" "member"],
     Return true).
Proof.
  exact (authority_consulted_once
           "member" (Sample.constant_authority true)
           "keystone" "identity:create_trust"
           [("trust.trustor_user_id", "auth_provider.credentials.user_id")]
           Sample.test_case (PyStr "project-1") (PyStr "user-1")
           [("trust.trustor_user_id", PyStr "user-1")]
           {| get_permission := fun _ _ => Return true |} true
           eq_refl eq_refl eq_refl).
Defined.

(** X3.  An exception of the authority, raised by its constructor or by
    [get_permission], reaches the caller of the wrapper as it is, whatever
    its class: nothing is logged, the test is not called and the role is
    not restored.  In particular [RbacInvalidService] raised by the
    authority is not turned into [NotFound]. *)
Theorem authority_exception_propagates
    rbac_test_role RbacAuthority exc_str instantiate
        switch_role service rule expected_error_code
    extra_target_data func args kwargs c p u extra e :
  outcome (credentials_block exc_str args) = Return (c, p, u) ->
  outcome (_format_extra_target_data c extra_target_data) = Return extra ->
  RbacAuthority p u service extra = Raise e
  \/ (exists authority,
        RbacAuthority p u service extra = Return authority
        /\ get_permission authority rule rbac_test_role = Raise e) ->
  let invocation :=
    action rbac_test_role RbacAuthority exc_str instantiate
        switch_role service rule false
      expected_error_code extra_target_data func args kwargs in
  outcome invocation = Raise e
  /\ count is_log (trace invocation) = 0
  /\ count is_func_call (trace invocation) = 0
  /\ count is_role_restoration (trace invocation) = 0.
Proof.
  intros Hc Hx Hauth invocation.
  destruct (credentials_block_Return _ _ _ _ _ Hc) as [Hc' _].
  assert (Hfmt : _format_extra_target_data c extra_target_data
                 = ([], Return extra)).
  { rewrite _format_extra_target_data_eta, Hx. reflexivity. }
  assert (Hinv : exists t,
             invocation = (t, Raise e)
             /\ forallb is_authority_event t = true).
  { subst invocation. unfold action, wrapper.
    rewrite Hc', bind_ret_l. unfold allowed_block.
    rewrite Hfmt, bind_ret_l. unfold bind, emit, lift.
    destruct Hauth as [Hnew|(authority & Hnew & Hget)]; rewrite Hnew.
    - eexists. split; reflexivity.
    - rewrite Hget. eexists. split; reflexivity. }
  destruct Hinv as (t & -> & Ht). simpl.
  split; [reflexivity|].
  split; [|split]; apply (count_none _ is_authority_event); try exact Ht;
    intros ev; destruct ev; simpl; intros; try discriminate; reflexivity.
Qed.

(** An authority that rejects the service. *)
Lemma authority_exception_propagates_witness :
  outcome (action "member" Sample.rejecting_authority Sample.exc_str
             Sample.instantiate Sample.switch_role
             "nowhere" "os_compute_api:servers:create" false 403 []
             Sample.passing_test [Sample.test_case] [])
  = Raise (mkexn RbacInvalidService
             (Some "Attempted to test an invalid service")).
Proof.
  exact (proj1
           (authority_exception_propagates
              "member" Sample.rejecting_authority Sample.exc_str
              Sample.instantiate Sample.switch_role
              "nowhere" "os_compute_api:servers:create" 403%Z []
              Sample.passing_test [Sample.test_case] []
              Sample.test_case (PyStr "project-1") (PyStr "user-1") [] _
              eq_refl eq_refl (or_introl eq_refl))).
Defined.

(** ** What an invocation logs *)

Lemma filter_none (p q : event -> bool) (t : list event) :
  forallb q t = true ->
  (forall ev, q ev = true -> p ev = false) ->
  filter p t = [].
Proof.
  intros Hq Hpq. induction t as [|ev t IH]; simpl in *; [reflexivity|].
  apply andb_prop in Hq. destruct Hq as [Hev Ht].
  rewrite (Hpq ev Hev). apply IH. exact Ht.
Qed.

Lemma setup_event_is_no_warning ev :
  is_setup_event ev = true -> is_LOG_warning ev = false.
Proof. destruct ev; simpl; intros; try discriminate; reflexivity. Qed.

Lemma setup_event_is_no_call ev :
  is_setup_event ev = true -> is_func_call ev = false.
Proof. destruct ev; simpl; intros; try discriminate; reflexivity. Qed.

Lemma _get_exception_type_unsupported code :
  code <> 403%Z -> code <> 404%Z ->
  _get_exception_type code
  = ([LOG_error
        "Please pass an expected error code. Currently supported codes: [403, 404]"],
     Raise (mkexn RbacInvalidErrorCode None)).
Proof.
  intros n3 n4. unfold _get_exception_type.
  destruct (Z.eqb_spec code 403); [contradiction|].
  destruct (Z.eqb_spec code 404); [contradiction|].
  reflexivity.
Qed.

Lemma _get_exception_type_cases code ee im :
  outcome (_get_exception_type code) = Return (ee, im) ->
  (code = 403%Z /\ ee = Forbidden /\ im = None)
  \/ (code = 404%Z /\ ee = NotFound
      /\ exists template,
           im = Some template
           /\ forall rule service,
                str_format template [rule; service]
                = irregular_notice rule service).
Proof.
  unfold _get_exception_type.
  destruct (Z.eqb_spec code 403) as [->|n3].
  - simpl. intros [= <- <-]. auto.
  - destruct (Z.eqb_spec code 404) as [->|n4].
    + simpl. intros [= <- <-]. right. repeat split.
      eexists. split; [reflexivity|]. intros rule service. reflexivity.
    + simpl. discriminate.
Qed.

Section LogFacts.

Variable rbac_test_role : string.
Variable RbacAuthority :
  pyobj -> pyobj -> string -> dict pyobj -> result authority.
Variable exc_str : exn -> string.
Variable instantiate : exc_class -> string -> result exn.
Variable switch_role : pyobj -> pyobj -> bool -> result pyobj.
Variables service rule : string.
Variable admin_only : bool.
Variable expected_error_code : Z.
Variable extra_target_data : dict string.
Variable func : list pyobj -> dict pyobj -> result pyobj.

Lemma allowed_block_setup_events c p u :
  forallb is_setup_event
    (trace (allowed_block rbac_test_role RbacAuthority service rule
              admin_only extra_target_data c p u)) = true.
Proof.
  unfold allowed_block.
  destruct admin_only; [reflexivity|].
  rewrite (_format_extra_target_data_eta c extra_target_data).
  destruct (outcome (_format_extra_target_data c extra_target_data))
    as [extra|e]; [|reflexivity].
  rewrite bind_ret_l. unfold bind, emit, lift.
  destruct (RbacAuthority p u service extra) as [authority|e];
    [|reflexivity].
  destruct (get_permission authority rule rbac_test_role); reflexivity.
Qed.

(** An invocation either reaches the test block after setup events only,
    or consists of setup events only. *)
Lemma wrapper_setup_events args kwargs :
  let invocation :=
    action rbac_test_role RbacAuthority exc_str instantiate
        switch_role service rule admin_only
      expected_error_code extra_target_data func args kwargs in
  (exists c p u a ee im,
     outcome (credentials_block exc_str args) = Return (c, p, u)
     /\ outcome (allowed_block rbac_test_role RbacAuthority service rule
                   admin_only extra_target_data c p u) = Return a
     /\ outcome (_get_exception_type expected_error_code) = Return (ee, im)
     /\ invocation
        = ((trace (allowed_block rbac_test_role RbacAuthority service rule
                     admin_only extra_target_data c p u)
            ++ trace (test_block rbac_test_role exc_str instantiate
                switch_role service rule func
                        c a ee im args))%list,
           outcome (test_block rbac_test_role exc_str instantiate
               switch_role service rule func
                      c a ee im args)))
  \/ ((exists e, outcome invocation = Raise e)
      /\ forallb is_setup_event (trace invocation) = true).
Proof.
  intros invocation. subst invocation.
  destruct (credentials_block_cases exc_str args)
    as [(p & u & Hc)|(msg & Hc)].
  2:{ unfold action, wrapper. rewrite Hc.
      right; split; [eexists|]; reflexivity. }
  pose proof (allowed_block_setup_events (select_caller_ref args) p u)
    as Ht2.
  destruct (outcome (allowed_block rbac_test_role RbacAuthority service rule
                       admin_only extra_target_data
                       (select_caller_ref args) p u)) as [a|e] eqn:Ha.
  - destruct (outcome (_get_exception_type expected_error_code))
      as [[ee im]|e] eqn:He.
    + left. exists (select_caller_ref args), p, u, a, ee, im.
      rewrite Hc. repeat split; try assumption.
      erewrite wrapper_reaches_test; try eassumption; [|rewrite Hc; reflexivity].
      rewrite Hc. reflexivity.
    + right. unfold action, wrapper. rewrite Hc, bind_ret_l.
      assert (Hcode : expected_error_code <> 403%Z
                      /\ expected_error_code <> 404%Z).
      { split; intros E; rewrite E in He; discriminate. }
      destruct Hcode as [n3 n4].
      split.
      * exists e. erewrite outcome_bind_Return by exact Ha.
        apply outcome_bind_Raise. exact He.
      * erewrite trace_bind_Return by exact Ha.
        rewrite (_get_exception_type_unsupported _ n3 n4).
        rewrite forallb_app, Ht2. reflexivity.
  - right. unfold action, wrapper. rewrite Hc, bind_ret_l.
    split.
    + exists e. apply outcome_bind_Raise. exact Ha.
    + erewrite trace_bind_Raise by exact Ha. exact Ht2.
Qed.

(** The warnings of the test block. *)
Lemma test_block_warnings c a ee im args :
  filter is_LOG_warning
    (trace (test_block rbac_test_role exc_str instantiate
        switch_role service rule func
              c a ee im args))
  = match func args [] with
    | Return _ => []
    | Raise e =>
        if isinstance e RbacInvalidService then []
        else if (isinstance e ee || isinstance e RbacActionFailed)%bool then
          match im with
          | Some template =>
              if truthy im
              then [LOG_warning (str_format template [rule; service])]
              else []
          | None => []
          end
        else []
    end.
Proof.
  unfold test_block. rewrite try_except_else_finally_call, trace_pair.
  cbn [filter is_LOG_warning]. rewrite filter_app.
  assert (Hr : filter is_LOG_warning (trace (restore_role switch_role c))
               = []).
  { destruct (restore_role_trace switch_role c) as [-> | ->]; reflexivity. }
  rewrite Hr, app_nil_r.
  destruct (func args []) as [v|e].
  - destruct a; reflexivity.
  - unfold dispatch.
    destruct (isinstance e RbacInvalidService); [reflexivity|].
    destruct (isinstance e ee || isinstance e RbacActionFailed)%bool.
    + destruct im as [template|]; [|destruct a; reflexivity].
      destruct (truthy (Some template)), a; reflexivity.
    + destruct (is_Exception e); [|reflexivity].
      unfold bind, emit, lift.
      match goal with
      | |- context [instantiate ?cls ?msg] => destruct (instantiate cls msg)
      end; reflexivity.
Qed.

End LogFacts.

(** X4.  The only warning an invocation logs is the irregular notice, and
    only where 404 is the expected error code.  It is logged once when the
    test raises [NotFound] or [RbacActionFailed] (also under a verdict that
    makes the wrapper return normally), and not at all when the test
    returns or raises anything else. *)
Theorem irregular_notice_logged
    rbac_test_role RbacAuthority exc_str instantiate
        switch_role service rule admin_only
    expected_error_code extra_target_data func args kwargs :
  let warnings :=
    filter is_LOG_warning
      (trace (action rbac_test_role RbacAuthority exc_str instantiate
          switch_role service rule
                admin_only expected_error_code extra_target_data func
                args kwargs)) in
  (warnings = [] \/ warnings = [LOG_warning (irregular_notice rule service)])
  /\ (expected_error_code <> 404%Z -> warnings = [])
  /\ (forall c p u a e,
        outcome (credentials_block exc_str args) = Return (c, p, u) ->
        outcome (allowed_block rbac_test_role RbacAuthority service rule
                   admin_only extra_target_data c p u) = Return a ->
        expected_error_code = 404%Z ->
        func args [] = Raise e ->
        (isinstance e NotFound || isinstance e RbacActionFailed)%bool = true ->
        warnings = [LOG_warning (irregular_notice rule service)])
  /\ (forall v, func args [] = Return v -> warnings = [])
  /\ (forall e, func args [] = Raise e ->
        (isinstance e NotFound || isinstance e RbacActionFailed)%bool = false ->
        warnings = []).
Proof.
  intros warnings.
  destruct (wrapper_setup_events rbac_test_role RbacAuthority exc_str instantiate switch_role
              service rule admin_only expected_error_code extra_target_data
              func args kwargs)
    as [(c & p & u & a & ee & im & Hc & Ha & He & Hinv)|[_ Hq]].
  2:{ assert (Hw : warnings = []).
      { subst warnings.
        apply (filter_none _ _ _ Hq setup_event_is_no_warning). }
      rewrite Hw. repeat split; auto.
      intros c p u a e Hc Ha Hcode Hf He. exfalso.
      subst expected_error_code.
      destruct (restoration_after_test rbac_test_role RbacAuthority exc_str instantiate switch_role
                  service rule admin_only 404%Z extra_target_data func
                  args kwargs c p u a NotFound _ Hc Ha eq_refl)
        as (Hcall & _).
      rewrite (count_none _ _ _ Hq setup_event_is_no_call) in Hcall.
      discriminate. }
  assert (Hw : warnings
               = filter is_LOG_warning
                   (trace (test_block rbac_test_role exc_str instantiate
                       switch_role service rule
                             func c a ee im args))).
  { subst warnings. rewrite Hinv, trace_pair, filter_app.
    rewrite (filter_none _ _ _
               (allowed_block_setup_events rbac_test_role RbacAuthority
                  service rule admin_only extra_target_data c p u)
               setup_event_is_no_warning).
    reflexivity. }
  rewrite Hw, test_block_warnings. clear Hw warnings Hinv.
  destruct (_get_exception_type_cases _ _ _ He)
    as [(Hcode & -> & ->)|(Hcode & -> & template & -> & Htpl)].
  - (* 403: no template *)
    assert (Hnone : match func args [] with
                    | Return _ => []
                    | Raise e =>
                        if isinstance e RbacInvalidService then []
                        else if (isinstance e Forbidden
                                 || isinstance e RbacActionFailed)%bool
                        then [] else []
                    end = (@nil event)).
    { destruct (func args []) as [v|e]; [reflexivity|].
      destruct (isinstance e RbacInvalidService); [reflexivity|].
      destruct (isinstance e Forbidden || isinstance e RbacActionFailed)%bool;
        reflexivity. }
    rewrite Hnone. repeat split; auto.
    intros c' p' u' a' e _ _ Hcode'. rewrite Hcode in Hcode'. discriminate.
  - (* 404: the template is present *)
    assert (Htruthy : truthy (Some template) = true).
    { destruct (_get_exception_type_Return _ _ _ He)
        as [_ [(E & _)|(_ & _ & T)]]; [|exact T].
      rewrite Hcode in E. discriminate. }
    rewrite Htruthy, Htpl.
    assert (Hsvc : forall e,
              (isinstance e NotFound || isinstance e RbacActionFailed)%bool
              = true -> isinstance e RbacInvalidService = false).
    { intros e. unfold isinstance.
      destruct (exc_type e); simpl; intros; try discriminate; reflexivity. }
    split; [|split; [|split; [|split]]].
    + destruct (func args []) as [v|e]; [left; reflexivity|].
      destruct (isinstance e RbacInvalidService); [left; reflexivity|].
      destruct (isinstance e NotFound || isinstance e RbacActionFailed)%bool;
        [right|left]; reflexivity.
    + intros n4. contradiction.
    + intros c' p' u' a' e _ _ _ Hf Hx. rewrite Hf, (Hsvc e Hx), Hx.
      reflexivity.
    + intros v Hf. rewrite Hf. reflexivity.
    + intros e Hf Hx. rewrite Hf, Hx.
      destruct (isinstance e RbacInvalidService); reflexivity.
Qed.

(** A denied member, 404 expected, and a test that raises
    [RbacActionFailed]: the notice is logged although no [NotFound] was
    caught. *)
Lemma irregular_notice_logged_witness :
  filter is_LOG_warning
    (trace (action "member" (Sample.constant_authority false) Sample.exc_str
              Sample.instantiate Sample.switch_role
              "neutron" "get_network" false 404 []
              (Sample.raising_test RbacActionFailed "Rbac action failed")
              [Sample.test_case] []))
  = [LOG_warning (irregular_notice "get_network" "neutron")].
Proof.
  exact (proj1
           (proj2
              (proj2
                 (irregular_notice_logged
                    "member" (Sample.constant_authority false) Sample.exc_str
                    Sample.instantiate Sample.switch_role
                    "neutron" "get_network" false 404 []
                    (Sample.raising_test RbacActionFailed
                       "Rbac action failed")
                    [Sample.test_case] [])))
           Sample.test_case (PyStr "project-1") (PyStr "user-1") false
           (mkexn RbacActionFailed (Some "Rbac action failed"))
           eq_refl eq_refl eq_refl eq_refl eq_refl).
Defined.

(** ** When an invocation passes *)

(** X5.  The wrapper returns normally exactly when the invocation reaches
    the test, the test behaves as the verdict predicts, and the restoration
    step returns: the verdict is [allowed] and the test returns, or the
    verdict is not [allowed] and the test raises the expected exception or
    [RbacActionFailed].  In every other case the wrapper raises. *)
Theorem pass_iff_outcome_matches_verdict
    rbac_test_role RbacAuthority exc_str instantiate switch_role
    service rule admin_only
    expected_error_code extra_target_data func args kwargs :
  outcome (action rbac_test_role RbacAuthority exc_str instantiate
             switch_role service rule
             admin_only expected_error_code extra_target_data func
             args kwargs) = Return tt
  <-> exists c p u a ee im,
        outcome (credentials_block exc_str args) = Return (c, p, u)
        /\ outcome (allowed_block rbac_test_role RbacAuthority service rule
                      admin_only extra_target_data c p u) = Return a
        /\ outcome (_get_exception_type expected_error_code)
           = Return (ee, im)
        /\ ((a = true /\ exists v, func args [] = Return v)
            \/ (a = false
                /\ exists e,
                     func args [] = Raise e
                     /\ isinstance e RbacInvalidService = false
                     /\ (isinstance e ee
                         || isinstance e RbacActionFailed)%bool = true))
        /\ outcome (restore_role switch_role c) = Return tt.
Proof.
  split.
  - intros Hpass.
    destruct (wrapper_cases rbac_test_role RbacAuthority exc_str instantiate
                switch_role service rule
                admin_only expected_error_code extra_target_data func
                args kwargs)
      as [(c & p & u & a & ee & im & Hc & Ha & He)|[[e Hraise] _]];
      [|rewrite Hraise in Hpass; discriminate].
    exists c, p, u, a, ee, im.
    erewrite wrapper_reaches_test in Hpass by eassumption.
    rewrite outcome_pair in Hpass.
    assert (Hr : outcome (restore_role switch_role c) = Return tt).
    { destruct (test_block_pending rbac_test_role exc_str instantiate
                  switch_role service rule func c a ee im args)
        as (pending & Hp).
      rewrite Hpass in Hp.
      destruct (outcome (restore_role switch_role c)) as [[]|e];
        [reflexivity|discriminate]. }
    split; [exact Hc|]. split; [exact Ha|]. split; [exact He|].
    split; [|exact Hr].
    destruct (func args []) as [v|e] eqn:Hf.
    + erewrite test_block_returns in Hpass by exact Hf.
      destruct a; [|rewrite outcome_pair, Hr in Hpass; discriminate].
      left. split; [reflexivity|eauto].
    + destruct (isinstance e RbacInvalidService) eqn:Hs.
      { erewrite test_block_invalid_service in Hpass by eassumption.
        rewrite outcome_pair, Hr in Hpass. discriminate. }
      destruct (isinstance e ee || isinstance e RbacActionFailed)%bool
        eqn:Hx.
      { erewrite test_block_denied in Hpass by eassumption.
        rewrite Hr in Hpass.
        destruct a; [discriminate|].
        right. split; [reflexivity|]. exists e. auto. }
      apply orb_false_elim in Hx. destruct Hx as [Hx Hg].
      destruct (is_Exception e) eqn:Hb.
      { erewrite test_block_unexpected in Hpass by eassumption.
        rewrite Hr in Hpass.
        destruct (instantiate (exc_type e)
                    (unexpected_message exc_str ee e)); discriminate. }
      erewrite test_block_base_exception in Hpass by eassumption.
      rewrite Hr in Hpass. discriminate.
  - intros (c & p & u & a & ee & im & Hc & Ha & He & Hcase & Hr).
    erewrite wrapper_reaches_test by eassumption.
    rewrite outcome_pair.
    destruct Hcase as [(-> & v & Hf)|(-> & e & Hf & Hs & Hx)].
    + erewrite test_block_returns by exact Hf.
      rewrite outcome_pair, Hr. reflexivity.
    + erewrite test_block_denied by eassumption. rewrite Hr. reflexivity.
Qed.

(** A denied member whose test is refused with [Forbidden] passes. *)
Lemma pass_iff_outcome_matches_verdict_witness :
  outcome (action "member" (Sample.constant_authority false) Sample.exc_str
             Sample.instantiate Sample.switch_role
             "nova" "os_compute_api:servers:create" false 403 []
             (Sample.raising_test Forbidden "denied")
             [Sample.test_case] [])
  = Return tt.
Proof.
  refine (proj2
            (pass_iff_outcome_matches_verdict
               "member" (Sample.constant_authority false) Sample.exc_str
               Sample.instantiate Sample.switch_role
               "nova" "os_compute_api:servers:create" false 403 []
               (Sample.raising_test Forbidden "denied")
               [Sample.test_case] [])
            _).
  exists Sample.test_case, (PyStr "project-1"), (PyStr "user-1"),
    false, Forbidden, None.
  repeat split. right. split; [reflexivity|].
  exists (mkexn Forbidden (Some "denied")). repeat split.
Defined.

(** X6.  An unsupported expected error code is found out only after the
    verdict has been computed: with the credentials found and the verdict
    computed, the invocation consists of the events of the verdict (the
    calls of the authority, or the information logged for [admin_only]),
    and one error logged with the supported codes; it raises
    [RbacInvalidErrorCode], without a message. *)
Theorem unsupported_code_detected_after_verdict
    rbac_test_role RbacAuthority exc_str instantiate
        switch_role service rule admin_only
    expected_error_code extra_target_data func args kwargs c p u a :
  outcome (credentials_block exc_str args) = Return (c, p, u) ->
  outcome (allowed_block rbac_test_role RbacAuthority service rule
             admin_only extra_target_data c p u) = Return a ->
  expected_error_code <> 403%Z ->
  expected_error_code <> 404%Z ->
  action rbac_test_role RbacAuthority exc_str instantiate
      switch_role service rule admin_only
    expected_error_code extra_target_data func args kwargs
  = ((trace (allowed_block rbac_test_role RbacAuthority service rule
               admin_only extra_target_data c p u)
      ++ [LOG_error
            "Please pass an expected error code. Currently supported codes: [403, 404]"])%list,
     Raise (mkexn RbacInvalidErrorCode None)).
Proof.
  intros Hc Ha n3 n4.
  destruct (credentials_block_Return _ _ _ _ _ Hc) as [Hc' _].
  unfold action, wrapper. rewrite Hc', bind_ret_l.
  destruct (allowed_block rbac_test_role RbacAuthority service rule
              admin_only extra_target_data c p u) as [t2 r2].
  simpl in Ha. subst r2. unfold bind at 1.
  rewrite (_get_exception_type_unsupported _ n3 n4). reflexivity.
Qed.

(** An allowed member with the expected error code 500: the authority has
    been asked before the code is refused. *)
Lemma unsupported_code_detected_after_verdict_witness :
  action "member" (Sample.constant_authority true) Sample.exc_str
    Sample.instantiate Sample.switch_role
    "nova" "os_compute_api:servers:create" false 500 []
    Sample.passing_test [Sample.test_case] []
  = ([RbacAuthority_init (PyStr "project-1") (PyStr "user-1") "nova" [];
      get_permission_call "os_compute_api:servers:create" "member";
      LOG_error
        "Please pass an expected error code. Currently supported codes: [403, 404]"],
     Raise (mkexn RbacInvalidErrorCode None)).
Proof.
  refine (unsupported_code_detected_after_verdict
            "member" (Sample.constant_authority true) Sample.exc_str
            Sample.instantiate Sample.switch_role
            "nova" "os_compute_api:servers:create" false 500%Z []
            Sample.passing_test [Sample.test_case] []
            Sample.test_case (PyStr "project-1") (PyStr "user-1") true
            eq_refl eq_refl _ _); discriminate.
Defined.

(** ** The resolved extra target data *)

Lemma dict_get_set_same {V} (d : dict V) k v :
  dict_get (dict_set d k v) k = Some v.
Proof.
  induction d as [|[k' v'] d IH]; simpl.
  - rewrite String.eqb_refl. reflexivity.
  - destruct (String.eqb k' k) eqn:E; simpl.
    + rewrite String.eqb_refl. reflexivity.
    + rewrite E. exact IH.
Qed.

Lemma dict_get_set_other {V} (d : dict V) k v k0 :
  k0 <> k -> dict_get (dict_set d k v) k0 = dict_get d k0.
Proof.
  intros Hne. induction d as [|[k' v'] d IH]; simpl.
  - destruct (String.eqb_spec k k0); [congruence|reflexivity].
  - destruct (String.eqb_spec k' k) as [->|Hk]; simpl.
    + destruct (String.eqb_spec k k0); [congruence|reflexivity].
    + destruct (String.eqb_spec k' k0); [reflexivity|exact IH].
Qed.

Lemma keys_dict_set_fresh {V} (d : dict V) k v :
  ~ In k (map fst d) -> map fst (dict_set d k v) = (map fst d ++ [k])%list.
Proof.
  induction d as [|[k' v'] d IH]; simpl; intros Hfresh; [reflexivity|].
  destruct (String.eqb_spec k' k) as [->|Hk].
  - exfalso. apply Hfresh. left. reflexivity.
  - simpl. f_equal. apply IH. intros Hin. apply Hfresh. right. exact Hin.
Qed.

(** One round of the outer loop. *)
Lemma for_items_cons v d k path rest :
  for_items v d ((k, path) :: rest)
  = (w <- getattr_each v (split "." path);;
     for_items w (dict_set d k w) rest).
Proof. reflexivity. Qed.

Lemma getattr_each_eta v attrs :
  getattr_each v attrs = ([], outcome (getattr_each v attrs)).
Proof.
  pose proof (getattr_each_trace v attrs) as Ht.
  destruct (getattr_each v attrs) as [t r]. simpl in *. now subst t.
Qed.

(** What the loop leaves in the dictionary: the keys it did not meet keep
    their value, and a key it met holds the value reached at its last
    entry. *)
Lemma for_items_values items : forall v d d',
  outcome (for_items v d items) = Return d' ->
  (forall k, ~ In k (map fst items) -> dict_get d' k = dict_get d k)
  /\ (forall before k path after,
        items = (before ++ (k, path) :: after)%list ->
        ~ In k (map fst after) ->
        dict_get d' k = attr_value_after v (before ++ [(k, path)])%list).
Proof.
  induction items as [|[k0 p0] rest IH]; intros v d d' Hret.
  - simpl in Hret. injection Hret as <-. split; [reflexivity|].
    intros before k path after E. destruct before; discriminate.
  - rewrite for_items_cons, (getattr_each_eta v (split "." p0)) in Hret.
    destruct (outcome (getattr_each v (split "." p0))) as [w|e] eqn:Hw;
      [|discriminate].
    rewrite bind_ret_l in Hret.
    destruct (IH w (dict_set d k0 w) d' Hret) as [Hkeep Hmet].
    split.
    + intros k Hk. simpl in Hk.
      rewrite Hkeep by (intros Hin; apply Hk; right; exact Hin).
      apply dict_get_set_other. intros ->. apply Hk. left. reflexivity.
    + intros before k path after E Hlast.
      destruct before as [|[k1 p1] before]; simpl in E.
      * injection E as -> -> ->. simpl. rewrite Hw.
        rewrite (Hkeep k Hlast). apply dict_get_set_same.
      * injection E as -> -> ->. simpl. rewrite Hw.
        apply (Hmet before k path after eq_refl Hlast).
Qed.

Lemma for_items_keys items : forall v d d',
  NoDup (map fst d ++ map fst items) ->
  outcome (for_items v d items) = Return d' ->
  map fst d' = (map fst d ++ map fst items)%list.
Proof.
  induction items as [|[k0 p0] rest IH]; intros v d d' Hnd Hret.
  - simpl in Hret. injection Hret as <-. simpl. now rewrite app_nil_r.
  - rewrite for_items_cons, (getattr_each_eta v (split "." p0)) in Hret.
    destruct (outcome (getattr_each v (split "." p0))) as [w|e];
      [|discriminate].
    rewrite bind_ret_l in Hret. simpl in Hnd.
    assert (Hfresh : ~ In k0 (map fst d)).
    { apply NoDup_remove_2 in Hnd. intros Hin. apply Hnd.
      apply in_or_app. left. exact Hin. }
    rewrite (IH w (dict_set d k0 w) d').
    + rewrite (keys_dict_set_fresh d k0 w Hfresh), <- app_assoc.
      reflexivity.
    + rewrite (keys_dict_set_fresh d k0 w Hfresh), <- app_assoc.
      exact Hnd.
    + exact Hret.
Qed.

(** X7.  When the resolver returns, the dictionary it returns has the
    attribute names of the mapping, in its order, and each of them holds
    the value reached by following the paths of all entries up to its own,
    one after the other, from the test case. *)
Theorem resolved_data_follow_the_entries test_obj extra_target_data d :
  NoDup (map fst extra_target_data) ->
  outcome (_format_extra_target_data test_obj extra_target_data) = Return d ->
  map fst d = map fst extra_target_data
  /\ (forall before attribute path after,
        extra_target_data = (before ++ (attribute, path) :: after)%list ->
        dict_get d attribute
        = attr_value_after test_obj (before ++ [(attribute, path)])%list).
Proof.
  intros Hnd Hret. unfold _format_extra_target_data in Hret. split.
  - apply (for_items_keys extra_target_data test_obj [] d Hnd Hret).
  - intros before attribute path after E.
    destruct (for_items_values extra_target_data test_obj [] d Hret)
      as [_ Hmet].
    apply (Hmet before attribute path after E).
    rewrite E, map_app in Hnd. simpl in Hnd.
    apply NoDup_remove_2 in Hnd. intros Hin. apply Hnd.
    apply in_or_app. right. exact Hin.
Qed.

(** The test case, then its [auth_provider], then the name of the
    latter. *)
Lemma resolved_data_follow_the_entries_witness :
  dict_get [("first", Sample.auth_provider);
            ("second", PyStr "provider-name")] "second"
  = attr_value_after Sample.test_case
      [("first", "auth_provider"); ("second", "name")].
Proof.
  exact (proj2
           (resolved_data_follow_the_entries
              Sample.test_case
              [("first", "auth_provider"); ("second", "name")]
              [("first", Sample.auth_provider);
               ("second", PyStr "provider-name")]
              ltac:(repeat constructor; simpl; intuition discriminate)
              eq_refl)
           [("first", "auth_provider")] "second" "name" [] eq_refl).
Defined.

Lemma getattr_each_Raise v attrs e :
  outcome (getattr_each v attrs) = Raise e -> exc_type e = AttributeError.
Proof.
  revert v. induction attrs as [|a attrs IH]; intros v; cbn [getattr_each].
  - discriminate.
  - unfold getattr. destruct (dict_get (obj_attrs v) a) as [w|].
    + unfold ret. rewrite bind_ret_l. apply IH.
    + simpl. intros [= <-]. reflexivity.
Qed.

Lemma for_items_outcome items : forall v d,
  match outcome (for_items v d items) with
  | Return _ => exists v', attr_value_after v items = Some v'
  | Raise e => exc_type e = AttributeError /\ attr_value_after v items = None
  end.
Proof.
  induction items as [|[k0 p0] rest IH]; intros v d.
  - simpl. eauto.
  - rewrite for_items_cons, (getattr_each_eta v (split "." p0)).
    cbn [attr_value_after].
    destruct (outcome (getattr_each v (split "." p0))) as [w|e] eqn:Hw.
    + rewrite bind_ret_l. apply IH.
    + simpl. split; [|reflexivity].
      apply (getattr_each_Raise _ _ _ Hw).
Qed.

(** X8.  The resolver has no effect besides its result, and the only
    exception it raises is [AttributeError]; it returns exactly when every
    path can be followed from the value that the entries before it
    reached. *)
Theorem resolver_raises_only_AttributeError test_obj extra_target_data :
  trace (_format_extra_target_data test_obj extra_target_data) = []
  /\ (forall e,
        outcome (_format_extra_target_data test_obj extra_target_data)
        = Raise e ->
        exc_type e = AttributeError)
  /\ ((exists d,
         outcome (_format_extra_target_data test_obj extra_target_data)
         = Return d)
      <-> exists v, attr_value_after test_obj extra_target_data = Some v).
Proof.
  unfold _format_extra_target_data.
  pose proof (for_items_outcome extra_target_data test_obj []) as H.
  split; [apply for_items_trace|].
  destruct (outcome (for_items test_obj [] extra_target_data)) as [d|e].
  - split; [discriminate|]. split; [intros _; exact H|eauto].
  - destruct H as [Hcls Hnone]. split; [intros e' [= <-]; exact Hcls|].
    split.
    + intros [d Hd]. discriminate.
    + intros [v Hv]. rewrite Hnone in Hv. discriminate.
Qed.

(** One path that can be followed: the resolver returns. *)
Lemma resolver_raises_only_AttributeError_witness :
  exists v,
    attr_value_after Sample.test_case
      [("trust.trustor_user_id", "auth_provider.credentials.user_id")]
    = Some v.
Proof.
  exact (proj1
           (proj2
              (proj2
                 (resolver_raises_only_AttributeError Sample.test_case
                    [("trust.trustor_user_id",
                      "auth_provider.credentials.user_id")])))
           (ex_intro _ [("trust.trustor_user_id", PyStr "user-1")]
              eq_refl)).
Defined.

(** ** Finding the credentials *)

(** X9.  The credentials are found exactly when the first positional
    argument is a test case on which [auth_provider.credentials.project_id]
    and [auth_provider.credentials.user_id] can both be followed; the
    block then yields that argument and the two values, and logs nothing.
    Positional arguments after the first are not looked at. *)
Theorem credentials_found_iff exc_str args c p u :
  outcome (credentials_block exc_str args) = Return (c, p, u)
  <-> (exists rest, args = c :: rest)
      /\ isinstance_BaseTestCase c = true
      /\ outcome (getattr_each c
                    ["auth_provider"; "credentials"; "project_id"])
         = Return p
      /\ outcome (getattr_each c
                    ["auth_provider"; "credentials"; "user_id"])
         = Return u.
Proof.
  unfold credentials_block, try_except, getattr_each, select_caller_ref.
  destruct args as [|a0 rest].
  - split; [discriminate|]. intros [[rest' E] _]. discriminate.
  - destruct (isinstance_BaseTestCase a0) eqn:Hcase.
    2:{ split; [discriminate|].
        intros ([rest' E] & Hc & _). injection E as -> _. congruence. }
    unfold getattr.
    assert (Hsame : forall c',
              (exists rest', a0 :: rest = c' :: rest') -> c' = a0).
    { intros c' [rest' E]. injection E as -> _. reflexivity. }
    destruct (dict_get (obj_attrs a0) "auth_provider") as [ap|] eqn:E1;
      cbn.
    2:{ split; [discriminate|]. intros (Hex & _ & H & _).
        rewrite (Hsame c Hex), E1 in H. discriminate. }
    destruct (dict_get (obj_attrs ap) "credentials") as [cr|] eqn:E2; cbn.
    2:{ split; [discriminate|]. intros (Hex & _ & H & _).
        rewrite (Hsame c Hex), E1 in H. cbn in H. rewrite E2 in H.
        discriminate. }
    destruct (dict_get (obj_attrs cr) "project_id") as [pid|] eqn:E3; cbn.
    2:{ split; [discriminate|]. intros (Hex & _ & H & _).
        rewrite (Hsame c Hex), E1 in H. cbn in H. rewrite E2 in H.
        cbn in H. rewrite E3 in H. discriminate. }
    destruct (dict_get (obj_attrs cr) "user_id") as [uid|] eqn:E4; cbn.
    2:{ split; [discriminate|]. intros (Hex & _ & _ & H).
        rewrite (Hsame c Hex), E1 in H. cbn in H. rewrite E2 in H.
        cbn in H. rewrite E4 in H. discriminate. }
    split.
    + intros [= <- <- <-]. rewrite E1. cbn. rewrite E2. cbn.
      rewrite E3, E4. repeat split; eauto.
    + intros (Hex & _ & Hp & Hu). rewrite (Hsame c Hex) in *.
      rewrite E1 in Hp, Hu. cbn in Hp, Hu. rewrite E2 in Hp, Hu.
      cbn in Hp, Hu. rewrite E3 in Hp. rewrite E4 in Hu.
      cbn in Hp, Hu. congruence.
Qed.

(** A test case followed by another positional argument. *)
Lemma credentials_found_iff_witness :
  outcome (credentials_block Sample.exc_str
             [Sample.test_case; PyStr "server-1"])
  = Return (Sample.test_case, PyStr "project-1", PyStr "user-1").
Proof.
  exact (proj2
           (credentials_found_iff Sample.exc_str
              [Sample.test_case; PyStr "server-1"]
              Sample.test_case (PyStr "project-1") (PyStr "user-1"))
           (conj (ex_intro _ [PyStr "server-1"] eq_refl)
              (conj eq_refl (conj eq_refl eq_refl)))).
Defined.

(** ** The order of an invocation *)

Lemma credentials_block_first_argument exc_str args c p u :
  outcome (credentials_block exc_str args) = Return (c, p, u) ->
  exists rest, args = c :: rest.
Proof.
  intros H.
  destruct (credentials_block_Return _ _ _ _ _ H) as [_ Hsel].
  destruct args as [|a0 rest]; [discriminate H|].
  unfold select_caller_ref in Hsel.
  destruct (isinstance_BaseTestCase a0) eqn:Hcase.
  - subst c. exists rest. reflexivity.
  - exfalso. unfold credentials_block, select_caller_ref in H.
    rewrite Hcase in H. discriminate H.
Qed.


(** X10.  An invocation has one of two shapes.  Either it logs setup
    messages and talks to the authority, then calls the test once with the
    positional arguments, then logs, then runs the restoration step on the
    first positional argument, and does nothing afterwards; or it consists
    of setup messages and calls of the authority only, and raises.  The
    restoration step is one call of the role switch when
    [rbac_utils.switch_role] is found on the first positional argument;
    when it is not found, the step does nothing and the invocation raises
    the [AttributeError] of the lookup.  So the authority is never asked
    once the test has been called. *)
Theorem invocation_shape
    rbac_test_role RbacAuthority exc_str instantiate switch_role
    service rule admin_only
    expected_error_code extra_target_data func args kwargs :
  let invocation :=
    action rbac_test_role RbacAuthority exc_str instantiate switch_role
      service rule admin_only
      expected_error_code extra_target_data func args kwargs in
  (exists setup logs caller_ref rest restoration,
     args = caller_ref :: rest
     /\ trace invocation
        = (setup ++ func_call args [] :: logs ++ restoration)%list
     /\ forallb is_setup_event setup = true
     /\ forallb is_log logs = true
     /\ ((restoration = [switch_role_call caller_ref false]
          /\ exists method,
               outcome (getattr_each caller_ref
                          ["rbac_utils"; "switch_role"]) = Return method)
         \/ (restoration = []
             /\ exists e,
                  outcome (getattr_each caller_ref
                             ["rbac_utils"; "switch_role"]) = Raise e
                  /\ outcome invocation = Raise e)))
  \/ (forallb is_setup_event (trace invocation) = true
      /\ exists e, outcome invocation = Raise e).
Proof.
  intros invocation.
  destruct (wrapper_setup_events rbac_test_role RbacAuthority exc_str
              instantiate switch_role
              service rule admin_only expected_error_code extra_target_data
              func args kwargs)
    as [(c & p & u & a & ee & im & Hc & Ha & He & Hinv)|[He Hq]].
  - left.
    destruct (test_block_trace rbac_test_role exc_str instantiate
                switch_role service rule func
                c a ee im args) as (logs & Ht & Hl).
    destruct (test_block_pending rbac_test_role exc_str instantiate
                switch_role service rule func
                c a ee im args) as (pending & Hp).
    destruct (credentials_block_first_argument exc_str args c p u Hc)
      as [rest Hargs].
    exists (trace (allowed_block rbac_test_role RbacAuthority service rule
                     admin_only extra_target_data c p u)),
      logs, c, rest, (trace (restore_role switch_role c)).
    split; [exact Hargs|]. split.
    + subst invocation. rewrite Hinv, trace_pair, Ht. reflexivity.
    + split; [apply allowed_block_setup_events|]. split; [exact Hl|].
      destruct (restore_role_cases switch_role c)
        as [(m & Hm & Hr)|(e & Hm & _ & Hr)].
      * left. rewrite Hr. split; [reflexivity|]. exists m. exact Hm.
      * right. rewrite Hr. split; [reflexivity|]. exists e.
        split; [exact Hm|].
        subst invocation. rewrite Hinv, outcome_pair, Hp, Hr. reflexivity.
  - right. split; assumption.
Qed.

(** ** Errors in the log *)

Lemma verdict_event_is_no_error ev :
  (is_LOG_info ev || is_authority_event ev)%bool = true ->
  is_LOG_error ev = false.
Proof. destruct ev; simpl; intros; try discriminate; reflexivity. Qed.

Section ErrorLog.

Variable rbac_test_role : string.
Variable RbacAuthority :
  pyobj -> pyobj -> string -> dict pyobj -> result authority.
Variable exc_str : exn -> string.
Variable instantiate : exc_class -> string -> result exn.
Variable switch_role : pyobj -> pyobj -> bool -> result pyobj.
Variables service rule : string.
Variable admin_only : bool.
Variable extra_target_data : dict string.
Variable func : list pyobj -> dict pyobj -> result pyobj.

(** The verdict is computed without logging an error. *)
Lemma allowed_block_events c p u :
  forallb (fun ev => is_LOG_info ev || is_authority_event ev)%bool
    (trace (allowed_block rbac_test_role RbacAuthority service rule
              admin_only extra_target_data c p u)) = true.
Proof.
  unfold allowed_block.
  destruct admin_only; [reflexivity|].
  rewrite (_format_extra_target_data_eta c extra_target_data).
  destruct (outcome (_format_extra_target_data c extra_target_data))
    as [extra|e]; [|reflexivity].
  rewrite bind_ret_l. unfold bind, emit, lift.
  destruct (RbacAuthority p u service extra) as [authority|e];
    [|reflexivity].
  destruct (get_permission authority rule rbac_test_role); reflexivity.
Qed.

(** The errors logged by the test block, against what it does, when the
    restoration step returns. *)
Lemma test_block_error_count c a ee im args :
  outcome (restore_role switch_role c) = Return tt ->
  count is_LOG_error
    (trace (test_block rbac_test_role exc_str instantiate switch_role
              service rule func c a ee im args))
  = match outcome (test_block rbac_test_role exc_str instantiate
                     switch_role service rule func c a ee im args) with
    | Return _ => 0
    | Raise _ =>
        match func args [] with
        | Return _ => 1
        | Raise e =>
            if (is_Exception e || isinstance e RbacInvalidService
                || isinstance e ee || isinstance e RbacActionFailed)%bool
            then 1 else 0
        end
    end.
Proof.
  intros Hr. unfold test_block.
  rewrite try_except_else_finally_call, trace_pair, outcome_pair, Hr.
  rewrite count_cons, count_app.
  assert (H0 : count is_LOG_error (trace (restore_role switch_role c)) = 0).
  { destruct (restore_role_trace switch_role c) as [-> | ->]; reflexivity. }
  rewrite H0. cbn [is_LOG_error after_finally].
  destruct (func args []) as [v|e].
  - destruct a; reflexivity.
  - unfold dispatch.
    destruct (isinstance e RbacInvalidService), (isinstance e ee),
      (isinstance e RbacActionFailed), (is_Exception e);
      cbn; destruct im as [template|]; try destruct (truthy (Some template));
      destruct a; try reflexivity;
      match goal with
      | |- context [instantiate ?cls ?msg] => destruct (instantiate cls msg)
      end; reflexivity.
Qed.

End ErrorLog.

(** X11.  An invocation that passes has logged no error; an invocation
    that reaches the test, completes the restoration step and then raises
    has logged exactly one, unless what it raises is an exception of the
    test that does not derive from [Exception]. *)
Theorem errors_logged_with_failures
    rbac_test_role RbacAuthority exc_str instantiate switch_role
    service rule admin_only
    expected_error_code extra_target_data func args kwargs :
  let invocation :=
    action rbac_test_role RbacAuthority exc_str instantiate switch_role
      service rule admin_only
      expected_error_code extra_target_data func args kwargs in
  (outcome invocation = Return tt ->
   count is_LOG_error (trace invocation) = 0)
  /\ (forall c p u a ee im e',
        outcome (credentials_block exc_str args) = Return (c, p, u) ->
        outcome (allowed_block rbac_test_role RbacAuthority service rule
                   admin_only extra_target_data c p u) = Return a ->
        outcome (_get_exception_type expected_error_code)
        = Return (ee, im) ->
        outcome (restore_role switch_role c) = Return tt ->
        outcome invocation = Raise e' ->
        (forall e, func args [] = Raise e -> is_Exception e = true) ->
        count is_LOG_error (trace invocation) = 1).
Proof.
  intros invocation.
  assert (Hreach : forall c p u a ee im,
            outcome (credentials_block exc_str args) = Return (c, p, u) ->
            outcome (allowed_block rbac_test_role RbacAuthority service rule
                       admin_only extra_target_data c p u) = Return a ->
            outcome (_get_exception_type expected_error_code)
            = Return (ee, im) ->
            outcome invocation
            = outcome (test_block rbac_test_role exc_str instantiate
                         switch_role service rule func c a ee im args)
            /\ count is_LOG_error (trace invocation)
               = count is_LOG_error
                   (trace (test_block rbac_test_role exc_str instantiate
                             switch_role service rule
                             func c a ee im args))).
  { intros c p u a ee im Hc Ha He. subst invocation.
    erewrite wrapper_reaches_test by eassumption.
    destruct (credentials_block_Return _ _ _ _ _ Hc) as [-> _].
    split; [reflexivity|].
    rewrite !trace_pair. simpl app. rewrite count_app.
    rewrite (count_none _ _ _
               (allowed_block_events rbac_test_role RbacAuthority service
                  rule admin_only extra_target_data c p u)
               verdict_event_is_no_error).
    reflexivity. }
  split.
  - intros Hpass.
    destruct (wrapper_cases rbac_test_role RbacAuthority exc_str instantiate
                switch_role service rule
                admin_only expected_error_code extra_target_data func
                args kwargs)
      as [(c & p & u & a & ee & im & Hc & Ha & He)|[[e Hraise] _]].
    + destruct (Hreach c p u a ee im Hc Ha He) as [Hout Hcount].
      assert (Hr : outcome (restore_role switch_role c) = Return tt).
      { destruct (test_block_pending rbac_test_role exc_str instantiate
                    switch_role service rule func c a ee im args)
          as (pending & Hp).
        rewrite <- Hout, Hpass in Hp.
        destruct (outcome (restore_role switch_role c)) as [[]|e];
          [reflexivity|discriminate]. }
      rewrite Hcount, (test_block_error_count _ _ _ _ _ _ _ _ _ _ _ _ Hr).
      rewrite <- Hout, Hpass. reflexivity.
    + fold invocation in Hraise. rewrite Hraise in Hpass. discriminate.
  - intros c p u a ee im e' Hc Ha He Hr Hraise Hexc.
    destruct (Hreach c p u a ee im Hc Ha He) as [Hout Hcount].
    rewrite Hcount, (test_block_error_count _ _ _ _ _ _ _ _ _ _ _ _ Hr).
    rewrite <- Hout, Hraise.
    destruct (func args []) as [v|e] eqn:Hf; [reflexivity|].
    rewrite (Hexc e eq_refl). reflexivity.
Qed.

(** An allowed member whose test is refused: one error is logged. *)
Lemma errors_logged_with_failures_witness :
  count is_LOG_error
    (trace (action "member" (Sample.constant_authority true) Sample.exc_str
              Sample.instantiate Sample.switch_role
              "nova" "os_compute_api:servers:create" false 403 []
              (Sample.raising_test Forbidden "denied")
              [Sample.test_case] []))
  = 1.
Proof.
  refine (proj2
            (errors_logged_with_failures
               "member" (Sample.constant_authority true) Sample.exc_str
               Sample.instantiate Sample.switch_role
               "nova" "os_compute_api:servers:create" false 403 []
               (Sample.raising_test Forbidden "denied")
               [Sample.test_case] [])
            Sample.test_case (PyStr "project-1") (PyStr "user-1")
            true Forbidden None _ eq_refl eq_refl eq_refl eq_refl eq_refl _).
  intros e [= <-]. reflexivity.
Defined.

(** ** Paths and their segments *)

Lemma split_not_nil sep s : split sep s <> [].
Proof.
  destruct s as [|c s]; simpl; [discriminate|].
  destruct (Ascii.eqb c sep); [discriminate|].
  destruct (split sep s); discriminate.
Qed.

Lemma join_cons sep w l :
  l <> [] -> join sep (w :: l) = w ++ sep ++ join sep l.
Proof. destruct l; [congruence|reflexivity]. Qed.

Lemma split_without_separator sep s :
  contains sep s = false -> split sep s = [s].
Proof.
  induction s as [|c s IH]; simpl; [reflexivity|].
  destruct (Ascii.eqb c sep); simpl; [discriminate|].
  intros Hs. rewrite (IH Hs). reflexivity.
Qed.

(** X12.  Splitting a path on a separator loses nothing: the segments,
    joined with the separator, give the path back; there is at least one
    segment, and no segment contains the separator.  A path without the
    separator is its own single segment, so that the resolver looks a path
    without a dot up on the test case with one [getattr]. *)
Theorem split_segments sep s :
  join (String sep EmptyString) (split sep s) = s
  /\ split sep s <> []
  /\ Forall (fun segment => contains sep segment = false) (split sep s)
  /\ (contains sep s = false -> split sep s = [s])
  /\ (forall test_obj attribute,
        contains "." s = false ->
        _format_extra_target_data test_obj [(attribute, s)]
        = (v <- getattr test_obj s;; ret [(attribute, v)])).
Proof.
  split; [|split; [apply split_not_nil|split; [|split]]].
  - induction s as [|c s IH]; [reflexivity|]. simpl.
    destruct (Ascii.eqb_spec c sep) as [->|Hc].
    + rewrite join_cons by apply split_not_nil. rewrite IH. reflexivity.
    + pose proof (split_not_nil sep s) as Hne.
      destruct (split sep s) as [|w ws]; [congruence|].
      destruct ws as [|w' ws].
      * simpl in *. now rewrite IH.
      * rewrite join_cons by discriminate.
        rewrite join_cons in IH by discriminate.
        rewrite <- IH. reflexivity.
  - induction s as [|c s IH]; simpl.
    + constructor; [reflexivity|constructor].
    + destruct (Ascii.eqb_spec c sep) as [->|Hc].
      * constructor; [reflexivity|exact IH].
      * destruct (split sep s) as [|w ws]; simpl.
        { constructor; [|constructor]. simpl.
          destruct (Ascii.eqb_spec c sep); [contradiction|reflexivity]. }
        inversion IH as [|? ? Hw Hws]; subst.
        constructor; [|exact Hws]. simpl.
        destruct (Ascii.eqb_spec c sep); [contradiction|exact Hw].
  - apply split_without_separator.
  - intros test_obj attribute Hs.
    unfold _format_extra_target_data. rewrite for_items_cons.
    rewrite (split_without_separator "."%char s Hs).
    cbn [getattr_each for_items].
    unfold getattr. destruct (dict_get (obj_attrs test_obj) s); reflexivity.
Qed.

(** The attribute [name] is looked up on the test case itself. *)
Lemma split_segments_witness : split "." "name" = ["name"].
Proof.
  exact (proj1 (proj2 (proj2 (proj2 (split_segments "." "name")))) eq_refl).
Defined.
